(** * ToneCraft (src/app.py): prompt builder, credential resolver,
      rewrite client and the submit flow of [main].

    Python values are modelled as the code has them: a [str] is a sequence
    of Unicode code points, [None] is the absent case of an [option], a
    frozen dataclass is a record.  Effectful code runs in a small monad
    whose state survives a raised exception, as Python's does. *)

From Stdlib Require Import List NArith ZArith Bool Ascii String PrimFloat Lia.
Import ListNotations.

(** ** Python strings *)

Module PyStr.

(** One Unicode code point. *)
Definition char := N.

(** A Python [str]. *)
Definition str := list char.

Fixpoint of_string (s : string) : str :=
  match s with
  | EmptyString => []
  | String a r => N_of_ascii a :: of_string r
  end.

(** The newline character written [\n] in the source. *)
Definition nl : str := [10%N].

(** [str.isspace] on one code point: the characters CPython's
    [_PyUnicode_IsWhitespace] accepts. *)
Definition isspace (c : char) : bool :=
  ((9 <=? c) && (c <=? 13)            (* \t \n \v \f \r *)
   || (28 <=? c) && (c <=? 31)        (* FS GS RS US *)
   || (c =? 32)                       (* space *)
   || (c =? 133)                      (* U+0085 NEL *)
   || (c =? 160)                      (* U+00A0 no-break space *)
   || (c =? 5760)                     (* U+1680 *)
   || (8192 <=? c) && (c <=? 8202)    (* U+2000 .. U+200A *)
   || (c =? 8232) || (c =? 8233)      (* U+2028, U+2029 *)
   || (c =? 8239)                     (* U+202F *)
   || (c =? 8287)                     (* U+205F *)
   || (c =? 12288))%N.                (* U+3000 *)

Fixpoint dropwhile (p : char -> bool) (s : str) : str :=
  match s with
  | [] => []
  | c :: r => if p c then dropwhile p r else s
  end.

(** [str.lstrip()], [str.rstrip()] and [str.strip()] with no argument. *)
Definition lstrip (s : str) : str := dropwhile isspace s.
Definition rstrip (s : str) : str := rev (dropwhile isspace (rev s)).
Definition strip (s : str) : str := rstrip (lstrip s).

(** Truth value of a [str]: empty is false. *)
Definition str_truthy (s : str) : bool :=
  match s with [] => false | _ :: _ => true end.

(** Truth value of a [str | None]. *)
Definition truthy (k : option str) : bool :=
  match k with None => false | Some s => str_truthy s end.

(** [a or b] on [str | None] values. *)
Definition py_or (a b : option str) : option str :=
  if truthy a then a else b.

Definition str_eq_dec : forall a b : str, {a = b} + {a <> b} :=
  list_eq_dec N.eq_dec.

(** [needle in hay]: [needle] occurs in [hay] as a contiguous run. *)
Definition contains (needle hay : str) : Prop :=
  exists before after, hay = before ++ needle ++ after.

Definition startswith (hay pre : str) : Prop := exists rest, hay = pre ++ rest.
Definition endswith (hay suf : str) : Prop := exists rest, hay = rest ++ suf.

(** No whitespace at either end. *)
Definition no_outer_space (s : str) : Prop :=
  (forall c r, s = c :: r -> isspace c = false) /\
  (forall r c, s = r ++ [c] -> isspace c = false).

End PyStr.
Import PyStr.

Notation "'py' s" := (of_string s%string) (at level 9, s at level 0, only parsing).

(** ** Tone presets (src/app.py, lines 80-108) *)

(** [@dataclass(frozen=True) class TonePreset]. *)
Record TonePreset := mkTonePreset {
  label : str;
  instruction : str
}.

Definition Polite : TonePreset :=
  mkTonePreset (py "Polite")
    (py "Rewrite the sentence politely. Keep it short, respectful, and kind. "
     ++ py "Do not add extra information.").

Definition Friendly : TonePreset :=
  mkTonePreset (py "Friendly")
    (py "Rewrite the sentence in a warm, friendly tone. Keep it natural and gentle. "
     ++ py "Do not add extra information.").

Definition Professional : TonePreset :=
  mkTonePreset (py "Professional")
    (py "Rewrite the sentence in a professional tone (clear, calm, formal). "
     ++ py "Do not add extra information.").

(** [TONES: dict[str, TonePreset]], in insertion order. *)
Definition TONES : list (str * TonePreset) :=
  [ (py "Polite", Polite);
    (py "Friendly", Friendly);
    (py "Professional", Professional) ].

(** [TONES[k]]: [None] stands for the [KeyError] of a missing key. *)
Fixpoint dict_get {V : Type} (d : list (str * V)) (k : str) : option V :=
  match d with
  | [] => None
  | (k', v) :: r => if str_eq_dec k k' then Some v else dict_get r k
  end.

(** ** Prompt builder (src/app.py, lines 139-154) *)

(** The first lines of the f-string, from [You are] to [calm and kind.]. *)
Definition preamble : str :=
  py "You are a helpful writing assistant. Your goal is to rewrite one sentence with a bright, supportive vibe." ++ nl
  ++ py "Rules:" ++ nl
  ++ py "- Preserve the original meaning." ++ nl
  ++ py "- Output ONLY the rewritten sentence. No quotes, no bullet points, no explanations." ++ nl
  ++ py "- Keep it concise (1 sentence)." ++ nl
  ++ py "- Avoid harsh language or negativity; keep it calm and kind.".

(** The text of the f-string before [{tone.instruction}]; it opens with the
    newline that follows the triple quote. *)
Definition template_before_instruction : str :=
  nl ++ preamble ++ nl
  ++ nl
  ++ py "Task:" ++ nl.

(** The text between [{tone.instruction}] and [{user_text.strip()}]. *)
Definition template_before_sentence : str :=
  nl ++ nl ++ py "Sentence:" ++ nl.

(** The text after [{user_text.strip()}]. *)
Definition template_end : str := nl.

Definition build_prompt (user_text : str) (tone : TonePreset) : str :=
  strip (template_before_instruction
         ++ instruction tone
         ++ template_before_sentence
         ++ strip user_text
         ++ template_end).

(** ** Effects *)

(** An instance of Python's [Exception] class: the [KeyError] of a dict
    lookup, or any other one with its message. *)
Inductive exn :=
| KeyError (key : str)
| Exception (msg : str).

(** What a call into a library or a function gives back. *)
Inductive result (A : Type) :=
| Ok (a : A)
| Err (e : exn).
Arguments Ok {A} a.
Arguments Err {A} e.

(** How a block of statements ends: control goes on with a value, a
    [return] was executed, or an exception is propagating. *)
Inductive outcome (R A : Type) :=
| Next (a : A)
| Return (r : R)
| Raise (e : exn).
Arguments Next {R A} a.
Arguments Return {R A} r.
Arguments Raise {R A} e.

(** Statements over a state [S] inside a function returning [R].  The state
    is returned on every exit: what a [try] body wrote before it raised is
    still there in the handler. *)
Definition M (S R A : Type) : Type := S -> outcome R A * S.

Section Monad.
Context {S R : Type}.

Definition ret {A} (a : A) : M S R A := fun s => (Next a, s).

Definition bind {A B} (m : M S R A) (f : A -> M S R B) : M S R B :=
  fun s =>
    match m s with
    | (Next a, s') => f a s'
    | (Return r, s') => (Return r, s')
    | (Raise e, s') => (Raise e, s')
    end.

Definition get : M S R S := fun s => (Next s, s).
Definition put (s : S) : M S R unit := fun _ => (Next tt, s).
Definition modify (f : S -> S) : M S R unit := fun s => (Next tt, f s).

(** [return r]. *)
Definition return_ {A} (r : R) : M S R A := fun s => (Return r, s).

(** [raise e]. *)
Definition raise {A} (e : exn) : M S R A := fun s => (Raise e, s).

(** A call that leaves the state alone. *)
Definition lift {A} (r : result A) : M S R A :=
  match r with
  | Ok a => ret a
  | Err e => raise e
  end.

(** [try: body / except Exception as e: handler e]. *)
Definition try_except {A} (body : M S R A) (handler : exn -> M S R A)
  : M S R A :=
  fun s =>
    match body s with
    | (Raise e, s') => handler e s'
    | other => other
    end.

(** [if c: body], nothing otherwise. *)
Definition when (c : bool) (body : M S R unit) : M S R unit :=
  if c then body else ret tt.
End Monad.

Declare Scope py_scope.
Delimit Scope py_scope with M.
Notation "x <- c ;; k" := (bind c (fun x => k))
  (at level 61, c at next level, right associativity) : py_scope.
Notation "c ;; k" := (bind c (fun _ => k))
  (at level 61, right associativity) : py_scope.
Local Open Scope py_scope.

(** Calling a function whose body has locals [L]: the caller gets the
    returned value, [dflt] (Python's implicit [None]) when the body runs
    off its end, or the exception. *)
Definition call_function {L R} (dflt : R) (body : M L R unit) (locals : L)
  : result R :=
  match fst (body locals) with
  | Next _ => Ok dflt
  | Return r => Ok r
  | Raise e => Err e
  end.

(** ** The generation service (google.genai) as the code uses it *)

(** [types.Part(text=...)]. *)
Record Part := mkPart { part_text : str }.

(** [types.Content(role=..., parts=[...])]. *)
Record Content := mkContent { role : str; parts : list Part }.

(** [types.GenerateContentConfig(...)]. *)
Record GenerateContentConfig := mkConfig {
  temperature : float;
  top_p : float;
  max_output_tokens : Z
}.

(** The keyword arguments of [client.models.generate_content]. *)
Record GenerateRequest := mkRequest {
  model : str;
  contents : list Content;
  config : GenerateContentConfig
}.

(** The response object: [response.text] is a [str] or [None]. *)
Record Response := mkResponse { text : option str }.

(** A [genai.Client]; it holds the key it was built with. *)
Record Client := mkClient { client_api_key : str }.

(** ** What the program does to the outside, in order *)

Inductive Event :=
| UiWarning (msg : str)                            (* st.warning *)
| UiError (msg : str)                              (* st.error *)
| UiException (e : exn)                            (* st.exception *)
| UiSpinner (msg : str)                            (* with st.spinner *)
| UiMarkdown (body : str)                          (* st.markdown *)
| UiWrite (body : str)                             (* st.write *)
| UiDownloadButton (data : str)                    (* st.download_button *)
| ClientConstructed (api_key : str)                (* genai.Client(api_key=...) *)
| RequestSent (c : Client) (req : GenerateRequest) (* generate_content *).

(** The state that outlives a statement: [st.session_state["output"]]
    ([None] when the key is not in the session state), the entries
    [st.cache_resource] keeps for [get_client], and the events so far. *)
Record AppState := mkAppState {
  session_output : option str;
  client_cache : list (str * Client);
  trace : list Event
}.

(** The surroundings the code reads.  The libraries are not part of the
    repository: every call into them may return or raise an [Exception],
    and the service may answer by what it has seen before. *)
Record World := mkWorld {
  secrets_get : str -> result (option str);   (* st.secrets.get(name, None) *)
  getenv : str -> option str;                 (* os.getenv(name) *)
  new_client : str -> result Client;          (* genai.Client(api_key=name) *)
  generate_content :
    list Event -> Client -> GenerateRequest -> result Response
}.

Definition add_event (e : Event) (s : AppState) : AppState :=
  mkAppState (session_output s) (client_cache s) (trace s ++ [e]).

Definition emit {R} (e : Event) : M AppState R unit :=
  modify (add_event e).

Definition set_session_output {R} (o : option str) : M AppState R unit :=
  modify (fun s => mkAppState o (client_cache s) (trace s)).

Definition cache_client {R} (k : str) (c : Client) : M AppState R unit :=
  modify (fun s => mkAppState (session_output s) ((k, c) :: client_cache s)
                              (trace s)).

(** ** Credential resolver (src/app.py, lines 111-129) *)

Definition GEMINI_API_KEY : str := py "GEMINI_API_KEY".
Definition GOOGLE_API_KEY : str := py "GOOGLE_API_KEY".

(** The body of [get_api_key]; the state is its local variable [key]. *)
Definition get_api_key_body (w : World)
  : M (option str) (option str) unit :=
  put None ;;
  try_except
    (k <- lift (secrets_get w GEMINI_API_KEY) ;;
     put k ;;
     key <- get ;;
     when (negb (truthy key))
       (k <- lift (secrets_get w GOOGLE_API_KEY) ;;
        put k))
    (fun _ => ret tt) ;;
  key <- get ;;
  when (negb (truthy key))
    (put (py_or (getenv w GEMINI_API_KEY) (getenv w GOOGLE_API_KEY))) ;;
  key <- get ;;
  return_ key.

Definition get_api_key (w : World) : result (option str) :=
  call_function None (get_api_key_body w) None.

(** ** Client handle (src/app.py, lines 132-136) *)

(** [@st.cache_resource def get_client(api_key)]: the constructor runs on a
    key not seen before, and its client is kept when it returns. *)
Definition get_client {R} (w : World) (api_key : str)
  : M AppState R Client :=
  s <- get ;;
  match dict_get (client_cache s) api_key with
  | Some c => ret c
  | None =>
      emit (ClientConstructed api_key) ;;
      c <- lift (new_client w api_key) ;;
      cache_client api_key c ;;
      ret c
  end.

(** ** Rewrite client (src/app.py, lines 157-178) *)

(** [t or ""] for [t : str | None]. *)
Definition or_empty (t : option str) : str :=
  match t with
  | Some s => if str_truthy s then s else []
  | None => []
  end.

(** The literal [0.95] denotes the nearest binary64 value, in Python as
    here. *)
#[local] Set Warnings "-inexact-float".

Definition rewrite_request (model prompt : str) (temperature : float)
  : GenerateRequest :=
  mkRequest model
    [ mkContent (py "user") [ mkPart prompt ] ]
    (mkConfig temperature 0.95%float 120%Z).

Definition call_gemini_rewrite {R} (w : World) (client : Client)
    (model prompt : str) (temperature : float) : M AppState R str :=
  s <- get ;;
  emit (RequestSent client (rewrite_request model prompt temperature)) ;;
  response <- lift (generate_content w (trace s) client
                      (rewrite_request model prompt temperature)) ;;
  ret (strip (or_empty (text response))).

(** ** The page (src/app.py, lines 182-294) *)

(** What the widgets of lines 207-240 hand to the script in one run. *)
Record Widgets := mkWidgets {
  tone_key : str;          (* st.selectbox("Tone", ...) *)
  model_choice : str;      (* st.selectbox("Gemini model", ...) *)
  creativity : float;      (* st.slider("Creativity", ...) *)
  user_text : str;         (* st.text_area("Your sentence", ...) *)
  generate : bool;         (* st.button "Polish" *)
  clear : bool             (* st.button "Clear" *)
}.

(** How a run of [main] ends without an exception: by [return] or its last
    statement, or by [st.rerun()], whose signal is not an [Exception] and
    leaves [main] from a place no [try] encloses. *)
Inductive main_exit := ReturnNone | RerunSignal.

Definition msg_blank_input : str :=
  py "Please type a sentence first " ++ [127800%N].          (* U+1F338 *)

Definition msg_missing_key : str :=
  py "Missing API key. Add `GEMINI_API_KEY` in Streamlit Secrets (or as an environment variable).".

Definition msg_spinner : str :=
  py "Polishing softly" ++ [8230%N].                         (* U+2026 *)

Definition msg_no_response : str :=
  py "I didn" ++ [8217%N] ++ py "t get a response. Please try again.".  (* U+2019 *)

Definition msg_something_wrong : str :=
  py "Something went wrong while calling Gemini.".

Definition msg_polished_heading : str :=
  py "### " ++ [9989%N] ++ py " Polished sentence".          (* U+2705 *)

(** The f-string of lines 279-283. *)
Definition output_card (out : str) : str :=
  nl
  ++ py "            <div class=" ++ [34%N] ++ py "sakura-card" ++ [34%N]
  ++ py " style=" ++ [34%N] ++ py "font-size: 1.05rem;" ++ [34%N] ++ py ">" ++ nl
  ++ py "              " ++ out ++ nl
  ++ py "            </div>" ++ nl
  ++ py "            ".

(** [TONES[tone_key]]. *)
Definition tones_lookup (k : str) : result TonePreset :=
  match dict_get TONES k with
  | Some t => Ok t
  | None => Err (KeyError k)
  end.

(** Lines 242-244. *)
Definition clear_flow : M AppState main_exit unit :=
  set_session_output None ;;
  return_ RerunSignal.

(** Lines 261-274: the [try] statement around the client and the call. *)
Definition rewrite_attempt (w : World) (ui : Widgets) (api_key prompt : str)
  : M AppState main_exit unit :=
  try_except
    (client <- get_client w api_key ;;
     emit (UiSpinner msg_spinner) ;;
     out <- call_gemini_rewrite w client (model_choice ui) prompt
              (creativity ui) ;;
     if negb (str_truthy out) then
       emit (UiError msg_no_response) ;;
       return_ ReturnNone
     else
       set_session_output (Some out))
    (fun e =>
       emit (UiError msg_something_wrong) ;;
       emit (UiException e)).

(** Lines 246-274: the body of [if generate:]. *)
Definition submit_flow (w : World) (ui : Widgets)
  : M AppState main_exit unit :=
  if negb (str_truthy (strip (user_text ui))) then
    emit (UiWarning msg_blank_input) ;;
    return_ ReturnNone
  else
    api_key <- lift (get_api_key w) ;;
    match api_key with
    | None =>
        emit (UiError msg_missing_key) ;;
        return_ ReturnNone
    | Some k =>
        if negb (str_truthy k) then
          emit (UiError msg_missing_key) ;;
          return_ ReturnNone
        else
          tone <- lift (tones_lookup (tone_key ui)) ;;
          rewrite_attempt w ui k (build_prompt (user_text ui) tone)
    end.

(** Lines 276-294: the stored output is shown when there is one. *)
Definition show_output : M AppState main_exit unit :=
  s <- get ;;
  match session_output s with
  | Some out =>
      emit (UiMarkdown msg_polished_heading) ;;
      emit (UiMarkdown (output_card out)) ;;
      emit (UiWrite []) ;;
      emit (UiDownloadButton out)
  | None => ret tt
  end.

(** [main] from line 242 on; the lines before lay the page out and read
    the widgets. *)
Definition main (w : World) (ui : Widgets) : M AppState main_exit unit :=
  when (clear ui) clear_flow ;;
  when (generate ui) (submit_flow w ui) ;;
  show_output.

(** ** Vocabulary of the statements *)

(** The prompt up to and including the line [Sentence:]. *)
Definition prompt_through_label (tone : TonePreset) : str :=
  preamble ++ nl
  ++ nl
  ++ py "Task:" ++ nl
  ++ instruction tone ++ nl
  ++ nl
  ++ py "Sentence:".

(** The sentence as it sits in the prompt: on a line of its own, unless
    nothing is left of it after stripping. *)
Definition sentence_part (user_text : str) : str :=
  match strip user_text with
  | [] => []
  | _ :: _ => nl ++ strip user_text
  end.

(** What a lookup in the secrets store contributes: its value, nothing
    when it raised. *)
Definition found (r : result (option str)) : option str :=
  match r with
  | Ok k => k
  | Err _ => None
  end.

(** The four sources in the order of the specification. *)
Definition sources (w : World) : list (option str) :=
  [ found (secrets_get w GEMINI_API_KEY);
    found (secrets_get w GOOGLE_API_KEY);
    getenv w GEMINI_API_KEY;
    getenv w GOOGLE_API_KEY ].

(** The first non-empty value of a list of sources, absent when there is
    none. *)
Fixpoint first_nonempty (l : list (option str)) : option str :=
  match l with
  | [] => None
  | k :: r => if truthy k then k else first_nonempty r
  end.

(** A secrets store that is not configured raises on every lookup, not on
    the first one only. *)
Definition store_coherent (w : World) : Prop :=
  forall e, secrets_get w GEMINI_API_KEY = Err e ->
            exists e', secrets_get w GOOGLE_API_KEY = Err e'.

(** The value of [key] when [get_api_key] leaves its [try] statement. *)
Definition key_after_secrets (w : World) : option str :=
  match secrets_get w GEMINI_API_KEY with
  | Err _ => None
  | Ok k1 =>
      if truthy k1 then k1
      else match secrets_get w GOOGLE_API_KEY with
           | Err _ => k1
           | Ok k2 => k2
           end
  end.

Definition is_request (ev : Event) : bool :=
  match ev with RequestSent _ _ => true | _ => false end.

Definition is_construction (ev : Event) : bool :=
  match ev with ClientConstructed _ => true | _ => false end.

(** How many requests went to the service, how many clients were built. *)
Definition requests_sent (tr : list Event) : nat :=
  List.length (filter is_request tr).
Definition clients_built (tr : list Event) : nat :=
  List.length (filter is_construction tr).

(** From [s] to [s'] no client was built, no request sent, and the stored
    output and the cached clients are the same. *)
Definition no_call_attempted (s s' : AppState) : Prop :=
  session_output s' = session_output s
  /\ client_cache s' = client_cache s
  /\ clients_built (trace s') = clients_built (trace s)
  /\ requests_sent (trace s') = requests_sent (trace s).

(** Lines 262-264 taken together: the client is fetched, the spinner shown
    and the rewrite requested. *)
Definition rewrite_call (w : World) (ui : Widgets) (api_key prompt : str)
  : M AppState main_exit str :=
  client <- get_client w api_key ;;
  emit (UiSpinner msg_spinner) ;;
  call_gemini_rewrite w client (model_choice ui) prompt (creativity ui).

(** Worlds and widget values to run the code on. *)
Definition world_unconfigured : World :=
  mkWorld (fun _ => Err (Exception (py "No secrets found.")))
          (fun _ => None)
          (fun k => Ok (mkClient k))
          (fun _ _ _ => Ok (mkResponse None)).

(** Only the environment variable [GOOGLE_API_KEY] is set, and the service
    gives every request the same answer. *)
Definition world_with (google_key : str) (answer : result Response)
  : World :=
  mkWorld (fun _ => Err (Exception (py "No secrets found.")))
          (fun n => if str_eq_dec n GOOGLE_API_KEY
                    then Some google_key else None)
          (fun k => Ok (mkClient k))
          (fun _ _ _ => answer).

Definition world_env_google (v : str) : World :=
  world_with v (Ok (mkResponse None)).

Definition world_service_down (v : str) : World :=
  world_with v (Err (Exception (py "503 UNAVAILABLE"))).

Definition state0 : AppState := mkAppState None [] [].

Definition click_polish (sentence : str) : Widgets :=
  mkWidgets (py "Polite") (py "gemini-2.5-flash-lite") 0.3%float sentence
            true false.

(** ** Vocabulary of the further properties *)

(** The events by which [main] shows a stored output (lines 276-294). *)
Definition display_events (o : option str) : list Event :=
  match o with
  | Some out =>
      [ UiMarkdown msg_polished_heading;
        UiMarkdown (output_card out);
        UiWrite [];
        UiDownloadButton out ]
  | None => []
  end.

(** A stored output, when there is one, is a non-empty string with no
    whitespace at either end. *)
Definition good_output (o : option str) : Prop :=
  forall out, o = Some out -> out <> [] /\ no_outer_space out.

(** The run from [s] to [s'] added the events [evs] and nothing else to the
    trace. *)
Definition added (s s' : AppState) (evs : list Event) : Prop :=
  trace s' = trace s ++ evs.

(** [Polish] was pressed alone, on a sentence that is not blank, with a key
    and a tone at hand: the run gets as far as the [try] statement. *)
Definition polish_attempted (w : World) (ui : Widgets) : Prop :=
  clear ui = false /\ generate ui = true
  /\ strip (user_text ui) <> []
  /\ exists k tone,
       get_api_key w = Ok (Some k) /\ k <> []
       /\ tones_lookup (tone_key ui) = Ok tone.

(** What holds of the events [evs] of one run of [main] that ends with the
    cached clients [cache']: at most one client built and one request
    sent, none of either unless the run got as far as the [try] statement,
    and every request is the one for the prompt of the sentence and tone
    on the page, sent through the client kept for the resolved key. *)
Definition run_events_ok (w : World) (ui : Widgets)
    (cache' : list (str * Client)) (evs : list Event) : Prop :=
  requests_sent evs <= 1 /\ clients_built evs <= 1
  /\ (0 < requests_sent evs + clients_built evs -> polish_attempted w ui)
  /\ (forall c req,
        In (RequestSent c req) evs ->
        exists k tone,
          get_api_key w = Ok (Some k)
          /\ tones_lookup (tone_key ui) = Ok tone
          /\ req = rewrite_request (model_choice ui)
                     (build_prompt (user_text ui) tone) (creativity ui)
          /\ dict_get cache' k = Some c).

(** The service answers every request with the text [answer]; the key is
    in the environment variable [GOOGLE_API_KEY]. *)
Definition world_answering (answer : str) : World :=
  world_with (py "AIza-env-2") (Ok (mkResponse (Some answer))).

(** ** The prompt builder over a store of objects (lines 139-154) *)

(** Python passes [user_text] by reference.  To say what [build_prompt]
    does to its argument and to the rest of the program, its body is
    written once more with the [str] objects in a store: each method call
    and the f-string read the objects they are given and make a new one.
    A [TonePreset] is declared frozen (line 80) and stays a value. *)
Definition addr := nat.

(** The [str] objects alive, by address, next to the state of the page. *)
Record Machine := mkMachine {
  heap : list str;
  page : AppState
}.

(** A new object; its address is the next free one. *)
Definition alloc {R} (x : str) : M Machine R addr :=
  fun m => (Next (List.length (heap m)), mkMachine (heap m ++ [x]) (page m)).

(** The text of the object at [a].  No reference of a running program
    points nowhere; that case only makes [load] total. *)
Definition load {R} (a : addr) : M Machine R str :=
  fun m =>
    match nth_error (heap m) a with
    | Some x => (Next x, m)
    | None => (Raise (Exception (py "no object at this address")), m)
    end.

(** [a.strip()]: the stripped text, in a new object.  (An implementation
    may hand back [a] itself when nothing is stripped; no object is
    written either way.) *)
Definition str_strip {R} (a : addr) : M Machine R addr :=
  x <- load a ;;
  alloc (strip x).

(** The f-string of lines 141-154 with its two fields filled in. *)
Definition format_template {R} (instruction_text : str) (sentence_at : addr)
  : M Machine R addr :=
  sentence <- load sentence_at ;;
  alloc (template_before_instruction
         ++ instruction_text
         ++ template_before_sentence
         ++ sentence
         ++ template_end).

(** The body of [build_prompt], call by call. *)
Definition build_prompt_in_store {R} (user_text : addr) (tone : TonePreset)
  : M Machine R addr :=
  stripped <- str_strip user_text ;;
  rendered <- format_template (instruction tone) stripped ;;
  str_strip rendered.

(** The events a run of [main] from [s] adds to the trace. *)
Definition events_of_run (w : World) (ui : Widgets) (s : AppState)
  : list Event :=
  skipn (List.length (trace s)) (trace (snd (main w ui s))).

(** [l] ends with [tail]. *)
Definition ends_with (l tail : list Event) : Prop :=
  exists before, l = before ++ tail.

(** * Theorems *)

(** ** Stripping *)

Section Strip.

Lemma dropwhile_spaces_app (ws r : str) :
  forallb isspace ws = true -> dropwhile isspace (ws ++ r) = dropwhile isspace r.
Proof.
  induction ws as [|c ws IH]; simpl; intros H; [reflexivity|].
  apply andb_prop in H. destruct H as [Hc Hws].
  rewrite Hc. now apply IH.
Qed.

Lemma dropwhile_nonspace (c : char) (r : str) :
  isspace c = false -> dropwhile isspace (c :: r) = c :: r.
Proof. intros H. simpl. now rewrite H. Qed.

Lemma lstrip_framed (ws : str) (c : char) (r : str) :
  forallb isspace ws = true -> isspace c = false ->
  lstrip (ws ++ c :: r) = c :: r.
Proof.
  intros Hws Hc. unfold lstrip.
  rewrite dropwhile_spaces_app by assumption.
  now apply dropwhile_nonspace.
Qed.

Lemma forallb_isspace_rev (ws : str) :
  forallb isspace ws = true -> forallb isspace (rev ws) = true.
Proof.
  intros H. apply forallb_forall. intros x Hx.
  apply in_rev in Hx.
  rewrite forallb_forall in H. now apply H.
Qed.

Lemma rstrip_framed (r : str) (c : char) (ws : str) :
  forallb isspace ws = true -> isspace c = false ->
  rstrip (r ++ c :: ws) = r ++ [c].
Proof.
  intros Hws Hc. unfold rstrip.
  rewrite rev_app_distr. simpl. rewrite <- app_assoc. simpl.
  rewrite dropwhile_spaces_app by now apply forallb_isspace_rev.
  rewrite dropwhile_nonspace by assumption.
  simpl. now rewrite rev_involutive.
Qed.

Lemma lstrip_all_space (ws : str) :
  forallb isspace ws = true -> lstrip ws = [].
Proof.
  intros H. unfold lstrip.
  rewrite <- (app_nil_r ws).
  now rewrite dropwhile_spaces_app.
Qed.

(** What [strip] leaves is the part between the outer whitespace. *)
Lemma strip_framed (ws1 m ws2 : str) :
  forallb isspace ws1 = true -> forallb isspace ws2 = true ->
  no_outer_space m ->
  strip (ws1 ++ m ++ ws2) = m.
Proof.
  intros H1 H2 [Hhd Hlast]. unfold strip.
  destruct m as [|c r].
  - simpl. rewrite lstrip_all_space; [reflexivity|].
    rewrite forallb_app. now rewrite H1, H2.
  - simpl app at 2.
    rewrite lstrip_framed; [|assumption|now apply (Hhd c r)].
    destruct (exists_last (l := c :: r)) as [r' [c' E]]; [discriminate|].
    change (c :: r ++ ws2) with ((c :: r) ++ ws2).
    rewrite E, <- app_assoc. simpl.
    apply rstrip_framed; [assumption|].
    now apply (Hlast r' c').
Qed.

Lemma dropwhile_head (s : str) (c : char) (r : str) :
  dropwhile isspace s = c :: r -> isspace c = false.
Proof.
  induction s as [|a s IH]; simpl; [discriminate|].
  destruct (isspace a) eqn:Ha; [assumption|].
  intros E. injection E as -> _. assumption.
Qed.

Lemma dropwhile_keeps_last (s r : str) (c : char) :
  dropwhile isspace s = r ++ [c] -> exists r0, s = r0 ++ [c].
Proof.
  revert r. induction s as [|a s IH]; simpl; intros r E.
  - now destruct r.
  - destruct (isspace a).
    + destruct (IH _ E) as [r0 ->]. now exists (a :: r0).
    + now exists r.
Qed.

Lemma strip_no_outer_space (s : str) : no_outer_space (strip s).
Proof.
  unfold strip, rstrip, lstrip. split.
  - intros c r E.
    assert (E' : dropwhile isspace (rev (dropwhile isspace s)) = rev r ++ [c]).
    { rewrite <- (rev_involutive (dropwhile _ (rev _))), E. reflexivity. }
    destruct (dropwhile_keeps_last _ _ _ E') as [r0 E0].
    assert (E1 : dropwhile isspace s = c :: rev r0).
    { rewrite <- (rev_involutive (dropwhile isspace s)), E0.
      rewrite rev_app_distr. reflexivity. }
    now apply dropwhile_head in E1.
  - intros r c E.
    assert (E' : dropwhile isspace (rev (dropwhile isspace s)) = c :: rev r).
    { rewrite <- (rev_involutive (dropwhile _ (rev _))), E.
      now rewrite rev_app_distr. }
    now apply dropwhile_head in E'.
Qed.

Lemma strip_idempotent (s : str) : strip (strip s) = strip s.
Proof.
  rewrite <- (app_nil_r (strip s)) at 1.
  apply (strip_framed [] (strip s) []); try reflexivity.
  apply strip_no_outer_space.
Qed.

End Strip.

(** ** Prompt builder *)

Section BuildPrompt.

Lemma preamble_head : exists r, preamble = 89%N :: r.
Proof. eexists. reflexivity. Qed.

Lemma label_last : py "Sentence:" = py "Sentence" ++ [58%N].
Proof. reflexivity. Qed.

Lemma rendered_no_outer_space (user_text : str) (tone : TonePreset) :
  no_outer_space (prompt_through_label tone ++ sentence_part user_text).
Proof.
  split.
  - intros c r E.
    destruct preamble_head as [p Ep].
    unfold prompt_through_label in E. rewrite Ep in E.
    cbn [app] in E. injection E as <- _. reflexivity.
  - intros r c E.
    unfold sentence_part in E.
    pose proof (strip_no_outer_space user_text) as [_ Hlast].
    destruct (strip user_text) as [|a l] eqn:Es.
    + rewrite app_nil_r in E. unfold prompt_through_label in E.
      rewrite label_last, !app_assoc in E.
      apply app_inj_tail in E. destruct E as [_ <-]. reflexivity.
    + destruct (exists_last (l := a :: l)) as [l' [c' El]]; [discriminate|].
      rewrite El, !app_assoc in E.
      apply app_inj_tail in E. destruct E as [_ <-].
      now apply (Hlast l' c').
Qed.

(** The prompt is the template with its outer newlines gone, and with
    the newline after [Sentence:] gone too when no sentence follows. *)
Lemma build_prompt_rendered (user_text : str) (tone : TonePreset) :
  build_prompt user_text tone
  = prompt_through_label tone ++ sentence_part user_text.
Proof.
  unfold build_prompt.
  pose proof (rendered_no_outer_space user_text tone) as Hm.
  unfold sentence_part in *.
  destruct (strip user_text) as [|a l] eqn:Es.
  - rewrite <- (strip_framed nl _ (nl ++ nl) eq_refl eq_refl Hm) at 1.
    f_equal.
    unfold template_before_instruction, template_before_sentence,
      template_end, prompt_through_label.
    rewrite <- ?app_assoc. reflexivity.
  - rewrite <- (strip_framed nl _ nl eq_refl eq_refl Hm) at 1.
    f_equal.
    unfold template_before_instruction, template_before_sentence,
      template_end, prompt_through_label.
    rewrite <- ?app_assoc. reflexivity.
Qed.

Lemma rendered_nonempty_sentence (user_text : str) (tone : TonePreset) :
  strip user_text <> [] ->
  build_prompt user_text tone
  = prompt_through_label tone ++ nl ++ strip user_text.
Proof.
  intros H. rewrite build_prompt_rendered. unfold sentence_part.
  destruct (strip user_text); [contradiction|reflexivity].
Qed.

Lemma rendered_empty_sentence (user_text : str) (tone : TonePreset) :
  strip user_text = [] ->
  build_prompt user_text tone = prompt_through_label tone.
Proof.
  intros H. rewrite build_prompt_rendered. unfold sentence_part.
  rewrite H. apply app_nil_r.
Qed.

End BuildPrompt.

(** ** Claims on the prompt builder *)

(** C1. For every tone preset of [TONES] and every [user_text], the prompt
    returned by [build_prompt] contains the tone's instruction verbatim and
    contains the stripped [user_text] verbatim. *)
Theorem build_prompt_contains_instruction_and_sentence
    (user_text key : str) (tone : TonePreset) :
  In (key, tone) TONES ->
  contains (instruction tone) (build_prompt user_text tone)
  /\ contains (strip user_text) (build_prompt user_text tone).
Proof.
  intros _. rewrite build_prompt_rendered. split.
  - exists (preamble ++ nl ++ nl ++ py "Task:" ++ nl).
    exists (nl ++ nl ++ py "Sentence:" ++ sentence_part user_text).
    unfold prompt_through_label.
    rewrite <- ?app_assoc. reflexivity.
  - unfold sentence_part. destruct (strip user_text) as [|a l].
    + exists (prompt_through_label tone), []. reflexivity.
    + exists (prompt_through_label tone ++ nl), [].
      rewrite app_nil_r, <- app_assoc. reflexivity.
Qed.

Lemma build_prompt_contains_instruction_and_sentence_witness :
  In (py "Friendly", Friendly) TONES
  /\ contains (instruction Friendly)
       (build_prompt (py " Call me back. ") Friendly)
  /\ contains (strip (py " Call me back. "))
       (build_prompt (py " Call me back. ") Friendly).
Proof.
  assert (H : In (py "Friendly", Friendly) TONES)
    by (right; left; reflexivity).
  split; [exact H|].
  exact (build_prompt_contains_instruction_and_sentence
           (py " Call me back. ") (py "Friendly") Friendly H).
Defined.

(** C2. When the stripped [user_text] is not empty, the prompt of any tone
    preset of [TONES] begins with the fixed preamble and ends with the
    stripped sentence, which sits right after the line [Sentence:] and has
    no whitespace at either end; [build_prompt("  Hello there  ", Polite)]
    embeds exactly [Hello there], and the prompt for
    [Send me the file by today.] with the Professional tone ends with that
    sentence. *)
Theorem build_prompt_begins_with_preamble_ends_with_sentence :
  (forall (user_text key : str) (tone : TonePreset),
      In (key, tone) TONES ->
      strip user_text <> [] ->
      startswith (build_prompt user_text tone)
                 (py "You are a helpful writing assistant")
      /\ startswith (build_prompt user_text tone) preamble
      /\ endswith (build_prompt user_text tone) (strip user_text)
      /\ build_prompt user_text tone
         = prompt_through_label tone ++ nl ++ strip user_text
      /\ no_outer_space (strip user_text))
  /\ build_prompt (py "  Hello there  ") Polite
     = prompt_through_label Polite ++ nl ++ py "Hello there"
  /\ endswith (build_prompt (py "Send me the file by today.") Professional)
              (py "Send me the file by today.").
Proof.
  split; [|split].
  - intros user_text key tone _ Hne.
    rewrite (rendered_nonempty_sentence user_text tone Hne).
    repeat split.
    + eexists. unfold prompt_through_label, preamble.
      change (py "You are a helpful writing assistant. Your goal is to rewrite one sentence with a bright, supportive vibe.")
        with (py "You are a helpful writing assistant"
              ++ py ". Your goal is to rewrite one sentence with a bright, supportive vibe.").
      rewrite <- ?app_assoc. reflexivity.
    + eexists. unfold prompt_through_label.
      rewrite <- ?app_assoc. reflexivity.
    + exists (prompt_through_label tone ++ nl).
      rewrite <- app_assoc. reflexivity.
    + apply strip_no_outer_space.
    + apply strip_no_outer_space.
  - rewrite rendered_nonempty_sentence by (vm_compute; discriminate).
    reflexivity.
  - rewrite rendered_nonempty_sentence by (vm_compute; discriminate).
    exists (prompt_through_label Professional ++ nl).
    rewrite <- app_assoc. reflexivity.
Qed.

Lemma build_prompt_begins_with_preamble_ends_with_sentence_witness :
  In (py "Professional", Professional) TONES
  /\ strip (py "Send me the file by today.") <> []
  /\ endswith (build_prompt (py "Send me the file by today.") Professional)
              (strip (py "Send me the file by today.")).
Proof.
  assert (H : In (py "Professional", Professional) TONES)
    by (right; right; left; reflexivity).
  assert (N : strip (py "Send me the file by today.") <> [])
    by (vm_compute; discriminate).
  split; [exact H|]. split; [exact N|].
  exact (proj1 (proj2 (proj2
    (proj1 build_prompt_begins_with_preamble_ends_with_sentence
       (py "Send me the file by today.") (py "Professional") Professional
       H N)))).
Defined.

Lemma nth_error_snoc (h : list str) (x : str) :
  nth_error (h ++ [x]) (List.length h) = Some x.
Proof.
  rewrite nth_error_app2 by lia. now rewrite Nat.sub_diag.
Qed.

Lemma nth_error_kept (h : list str) (x : str) (a : addr) (y : str) :
  nth_error h a = Some y -> nth_error (h ++ [x]) a = Some y.
Proof.
  intros H. rewrite nth_error_app1; [assumption|].
  apply nth_error_Some. now rewrite H.
Qed.

Lemma nth_error_third (h : list str) (x y z : str) :
  nth_error (((h ++ [x]) ++ [y]) ++ [z]) (S (S (List.length h))) = Some z.
Proof.
  replace (S (S (List.length h))) with (List.length ((h ++ [x]) ++ [y]))
    by (rewrite !length_app; cbn [List.length]; lia).
  apply nth_error_snoc.
Qed.

(** C9. [build_prompt] is deterministic and pure.  Run on a [user_text]
    object holding [s], it returns an object holding a string that depends
    on [s] and the tone alone, so a second call, from the state the first
    one left or from any other, returns the same string.  It has no side
    effect: every object alive before the call holds afterwards what it
    held before, [user_text] among them, and the state of the page, its
    trace of calls to the outside included, is what it was. *)
Theorem build_prompt_deterministic_and_pure {R : Type}
    (m : Machine) (user_text : addr) (s : str) (tone : TonePreset) :
  nth_error (heap m) user_text = Some s ->
  exists r m',
    build_prompt_in_store (R := R) user_text tone m = (Next r, m')
    /\ nth_error (heap m') r = Some (build_prompt s tone)
    /\ (forall a x, nth_error (heap m) a = Some x ->
                    nth_error (heap m') a = Some x)
    /\ nth_error (heap m') user_text = Some s
    /\ page m' = page m
    /\ (forall m2 user_text2,
          nth_error (heap m2) user_text2 = Some s ->
          exists r2 m2',
            build_prompt_in_store (R := R) user_text2 tone m2
            = (Next r2, m2')
            /\ nth_error (heap m2') r2 = nth_error (heap m') r).
Proof.
  assert (Run : forall m0 u0,
             nth_error (heap m0) u0 = Some s ->
             build_prompt_in_store (R := R) u0 tone m0
             = (Next (S (S (List.length (heap m0)))),
                mkMachine
                  (((heap m0 ++ [strip s])
                    ++ [template_before_instruction ++ instruction tone
                        ++ template_before_sentence ++ strip s
                        ++ template_end])
                   ++ [build_prompt s tone])
                  (page m0))).
  { intros m0 u0 H0.
    cbv [build_prompt_in_store str_strip format_template bind load alloc].
    rewrite H0. cbn [heap page]. rewrite nth_error_snoc.
    cbn [heap page]. rewrite nth_error_snoc. cbn [heap page].
    rewrite !length_app. cbn [List.length].
    rewrite !Nat.add_1_r. reflexivity. }
  intros Hu. eexists. eexists.
  split; [apply (Run m user_text Hu)|]. cbn [heap page].
  split; [apply nth_error_third|].
  split; [intros a x H; now do 3 apply nth_error_kept|].
  split; [now do 3 apply nth_error_kept|].
  split; [reflexivity|].
  intros m2 u2 H2. eexists. eexists.
  split; [apply (Run m2 u2 H2)|]. cbn [heap page].
  now rewrite !nth_error_third.
Qed.

Lemma build_prompt_deterministic_and_pure_witness :
  exists r m',
    build_prompt_in_store (R := main_exit) 0 Polite
      (mkMachine [py "  Hello there  "] state0)
    = (Next r, m')
    /\ nth_error (heap m') r = Some (build_prompt (py "  Hello there  ") Polite)
    /\ nth_error (heap m') 0 = Some (py "  Hello there  ")
    /\ page m' = state0.
Proof.
  destruct (build_prompt_deterministic_and_pure (R := main_exit)
              (mkMachine [py "  Hello there  "] state0) 0
              (py "  Hello there  ") Polite eq_refl)
    as (r & m' & Hrun & Hres & _ & Hu & Hp & _).
  exists r, m'. repeat split; assumption.
Defined.

(** C10. [build_prompt] returns a prompt for every string and every tone;
    the prompt has no whitespace at either end, so stripping it again
    changes nothing; when [user_text] is empty or whitespace only, the
    prompt is the template up to the line [Sentence:], with which it ends. *)
Theorem build_prompt_total_and_stripped (user_text : str) (tone : TonePreset) :
  build_prompt user_text tone <> []
  /\ no_outer_space (build_prompt user_text tone)
  /\ strip (build_prompt user_text tone) = build_prompt user_text tone
  /\ (strip user_text = [] ->
      build_prompt user_text tone = prompt_through_label tone
      /\ endswith (build_prompt user_text tone) (py "Sentence:")).
Proof.
  split; [|split; [|split]].
  - rewrite build_prompt_rendered. destruct preamble_head as [p Ep].
    unfold prompt_through_label. rewrite Ep. discriminate.
  - unfold build_prompt. apply strip_no_outer_space.
  - unfold build_prompt. apply strip_idempotent.
  - intros He. rewrite (rendered_empty_sentence user_text tone He).
    split; [reflexivity|].
    eexists. unfold prompt_through_label.
    rewrite ?app_assoc. reflexivity.
Qed.

Lemma build_prompt_total_and_stripped_witness :
  strip (py "   ") = []
  /\ build_prompt (py "   ") Polite = prompt_through_label Polite
  /\ endswith (build_prompt (py "   ") Polite) (py "Sentence:").
Proof.
  assert (E : strip (py "   ") = []) by reflexivity.
  split; [exact E|].
  exact (proj2 (proj2 (proj2
    (build_prompt_total_and_stripped (py "   ") Polite))) E).
Defined.

(** ** Credential resolver *)

Lemma get_api_key_unfold (w : World) :
  get_api_key w
  = Ok (if truthy (key_after_secrets w) then key_after_secrets w
        else py_or (getenv w GEMINI_API_KEY) (getenv w GOOGLE_API_KEY)).
Proof.
  unfold key_after_secrets.
  cbv [get_api_key call_function get_api_key_body bind put get when
       try_except lift ret return_ raise modify fst].
  destruct (secrets_get w GEMINI_API_KEY) as [k1|ex1].
  - destruct (truthy k1) eqn:T1; cbn [negb].
    + rewrite T1. reflexivity.
    + destruct (secrets_get w GOOGLE_API_KEY) as [k2|ex2].
      * destruct (truthy k2) eqn:T2; cbn [negb]; reflexivity.
      * rewrite T1. reflexivity.
  - reflexivity.
Qed.

Lemma key_after_secrets_falsy (w : World) :
  truthy (found (secrets_get w GEMINI_API_KEY)) = false ->
  truthy (found (secrets_get w GOOGLE_API_KEY)) = false ->
  truthy (key_after_secrets w) = false.
Proof.
  unfold key_after_secrets, found.
  destruct (secrets_get w GEMINI_API_KEY) as [k1|ex1]; [|reflexivity].
  intros T1 T2. rewrite T1.
  destruct (secrets_get w GOOGLE_API_KEY) as [k2|ex2]; assumption.
Qed.

(** Uses the truth values found so far, then closes a goal in which the
    value looked for has been met or nothing is left to look at. *)
Ltac settle_truth :=
  repeat match goal with
         | H : truthy ?k = _ |- context [truthy ?k] => rewrite H
         end;
  cbn [truthy];
  first [ discriminate
        | let E := fresh in intros E; rewrite ?E; reflexivity ].

(** C3. [get_api_key] consults the secrets store under [GEMINI_API_KEY],
    then under [GOOGLE_API_KEY], then the environment variable
    [GEMINI_API_KEY], then [GOOGLE_API_KEY], and returns the first non-empty
    value; when the three earlier sources are absent or empty it returns
    the value of the environment variable [GOOGLE_API_KEY]. *)
Theorem get_api_key_first_nonempty_source (w : World) :
  (store_coherent w ->
   forall v, first_nonempty (sources w) = Some v ->
             get_api_key w = Ok (Some v))
  /\ (forall v,
        truthy (found (secrets_get w GEMINI_API_KEY)) = false ->
        truthy (found (secrets_get w GOOGLE_API_KEY)) = false ->
        truthy (getenv w GEMINI_API_KEY) = false ->
        getenv w GOOGLE_API_KEY = Some v ->
        get_api_key w = Ok (Some v)).
Proof.
  split.
  - intros Hco v. rewrite get_api_key_unfold.
    unfold sources, first_nonempty, key_after_secrets, found, py_or.
    unfold store_coherent in Hco.
    destruct (secrets_get w GEMINI_API_KEY) as [k1|ex1];
      [|destruct (Hco ex1 eq_refl) as [ex2 ->]].
    + destruct (truthy k1) eqn:T1; [settle_truth|].
      destruct (secrets_get w GOOGLE_API_KEY) as [k2|ex2];
        [destruct (truthy k2) eqn:T2; [settle_truth|] |];
        destruct (truthy (getenv w GEMINI_API_KEY)) eqn:T3;
        try settle_truth;
        destruct (truthy (getenv w GOOGLE_API_KEY)) eqn:T4;
        settle_truth.
    + cbn [truthy].
      destruct (truthy (getenv w GEMINI_API_KEY)) eqn:T3;
        [settle_truth|].
      destruct (truthy (getenv w GOOGLE_API_KEY)) eqn:T4; settle_truth.
  - intros v T1 T2 T3 E4. rewrite get_api_key_unfold.
    rewrite (key_after_secrets_falsy w T1 T2).
    unfold py_or. rewrite T3. now rewrite E4.
Qed.

Lemma get_api_key_first_nonempty_source_witness :
  store_coherent (world_env_google (py "AIza-env-2"))
  /\ first_nonempty (sources (world_env_google (py "AIza-env-2")))
     = Some (py "AIza-env-2")
  /\ get_api_key (world_env_google (py "AIza-env-2"))
     = Ok (Some (py "AIza-env-2")).
Proof.
  assert (H : store_coherent (world_env_google (py "AIza-env-2"))).
  { intros e _. eexists. reflexivity. }
  assert (F : first_nonempty (sources (world_env_google (py "AIza-env-2")))
              = Some (py "AIza-env-2")) by reflexivity.
  split; [exact H|]. split; [exact F|].
  exact (proj1 (get_api_key_first_nonempty_source
                  (world_env_google (py "AIza-env-2"))) H _ F).
Defined.

(** C4. [get_api_key] never raises; with nothing to find in the secrets
    store (absent, empty or raising) and neither environment variable set
    it returns [None]; an exception of the secrets store, at the first or
    at the second lookup, is absorbed and the environment variables
    decide. *)
Theorem get_api_key_absent_without_exception (w : World) :
  (exists k, get_api_key w = Ok k)
  /\ (truthy (found (secrets_get w GEMINI_API_KEY)) = false ->
      truthy (found (secrets_get w GOOGLE_API_KEY)) = false ->
      getenv w GEMINI_API_KEY = None ->
      getenv w GOOGLE_API_KEY = None ->
      get_api_key w = Ok None)
  /\ (forall e,
        secrets_get w GEMINI_API_KEY = Err e ->
        get_api_key w
        = Ok (py_or (getenv w GEMINI_API_KEY) (getenv w GOOGLE_API_KEY)))
  /\ (forall k1 e,
        secrets_get w GEMINI_API_KEY = Ok k1 -> truthy k1 = false ->
        secrets_get w GOOGLE_API_KEY = Err e ->
        get_api_key w
        = Ok (py_or (getenv w GEMINI_API_KEY) (getenv w GOOGLE_API_KEY))).
Proof.
  split; [|split; [|split]].
  - eexists. apply get_api_key_unfold.
  - intros T1 T2 E3 E4. rewrite get_api_key_unfold.
    rewrite (key_after_secrets_falsy w T1 T2), E3, E4. reflexivity.
  - intros e E. rewrite get_api_key_unfold.
    unfold key_after_secrets. rewrite E. reflexivity.
  - intros k1 e E1 T1 E2. rewrite get_api_key_unfold.
    unfold key_after_secrets. rewrite E1, T1, E2, T1. reflexivity.
Qed.

Lemma get_api_key_absent_without_exception_witness :
  get_api_key world_unconfigured = Ok None.
Proof.
  exact (proj1 (proj2 (get_api_key_absent_without_exception
                         world_unconfigured))
           eq_refl eq_refl eq_refl eq_refl).
Defined.

(** Without a coherent store the order of C3 is not the whole story: a
    first lookup that raises ends the [try] statement, and the second
    name is not looked up. *)
Remark second_secret_not_read_after_exception :
  get_api_key
    (mkWorld (fun n => if str_eq_dec n GEMINI_API_KEY
                       then Err (Exception (py "boom"))
                       else Ok (Some (py "AIza-secret-2")))
             (fun _ => None)
             (fun k => Ok (mkClient k))
             (fun _ _ _ => Ok (mkResponse None)))
  = Ok None.
Proof. reflexivity. Qed.

(** ** Rewrite client *)

Lemma or_empty_some (x : str) : or_empty (Some x) = x.
Proof. destruct x; reflexivity. Qed.

Lemma call_gemini_rewrite_run {R : Type} (w : World) (c : Client)
    (m p : str) (t : float) (s : AppState) :
  call_gemini_rewrite (R := R) w c m p t s
  = (match generate_content w (trace s) c (rewrite_request m p t) with
     | Ok resp => Next (strip (or_empty (text resp)))
     | Err e => Raise e
     end,
     add_event (RequestSent c (rewrite_request m p t)) s).
Proof.
  cbv [call_gemini_rewrite bind get emit modify lift ret raise].
  destruct (generate_content w (trace s) c (rewrite_request m p t));
    reflexivity.
Qed.

(** C5. Whatever response the service gives, [call_gemini_rewrite] returns
    its text stripped of surrounding whitespace, and the empty string when
    the text is [None] or empty. *)
Theorem call_gemini_rewrite_returns_stripped_text {R : Type}
    (w : World) (c : Client) (m p : str) (t : float) (s : AppState)
    (resp : Response) :
  generate_content w (trace s) c (rewrite_request m p t) = Ok resp ->
  (forall x, text resp = Some x ->
             fst (call_gemini_rewrite (R := R) w c m p t s) = Next (strip x))
  /\ (text resp = None \/ text resp = Some [] ->
      fst (call_gemini_rewrite (R := R) w c m p t s) = Next []).
Proof.
  intros Hresp. rewrite call_gemini_rewrite_run, Hresp. cbn [fst].
  split.
  - intros x ->. now rewrite or_empty_some.
  - intros [-> | ->]; reflexivity.
Qed.

Lemma call_gemini_rewrite_returns_stripped_text_witness :
  fst (call_gemini_rewrite (R := main_exit)
         (world_with (py "k")
            (Ok (mkResponse (Some (py " Could you send it? ")))))
         (mkClient (py "k")) (py "gemini-2.5-flash") (py "prompt")
         0.3%float state0)
  = Next (py "Could you send it?").
Proof.
  exact (proj1 (call_gemini_rewrite_returns_stripped_text
                  (world_with (py "k")
                     (Ok (mkResponse (Some (py " Could you send it? ")))))
                  (mkClient (py "k")) (py "gemini-2.5-flash") (py "prompt")
                  0.3%float state0
                  (mkResponse (Some (py " Could you send it? "))) eq_refl)
           (py " Could you send it? ") eq_refl).
Defined.

(** C6. Every call of [call_gemini_rewrite] sends the service one request,
    which carries the given model, the given prompt as its only content,
    the given temperature, [top_p = 0.95] and [max_output_tokens = 120]. *)
Theorem call_gemini_rewrite_request {R : Type}
    (w : World) (c : Client) (m p : str) (t : float) (s : AppState) :
  exists req,
    snd (call_gemini_rewrite (R := R) w c m p t s)
    = add_event (RequestSent c req) s
    /\ fst (call_gemini_rewrite (R := R) w c m p t s)
       = match generate_content w (trace s) c req with
         | Ok resp => Next (strip (or_empty (text resp)))
         | Err e => Raise e
         end
    /\ model req = m
    /\ contents req = [ mkContent (py "user") [ mkPart p ] ]
    /\ temperature (config req) = t
    /\ top_p (config req) = 0.95%float
    /\ max_output_tokens (config req) = 120%Z.
Proof.
  exists (rewrite_request m p t).
  rewrite call_gemini_rewrite_run. repeat split.
Qed.

(** ** The submit flow *)

Lemma requests_sent_add (ev : Event) (tr : list Event) :
  requests_sent (tr ++ [ev])
  = requests_sent tr + (if is_request ev then 1 else 0).
Proof.
  unfold requests_sent. rewrite filter_app, length_app. simpl.
  destruct (is_request ev); reflexivity.
Qed.

Lemma clients_built_add (ev : Event) (tr : list Event) :
  clients_built (tr ++ [ev])
  = clients_built tr + (if is_construction ev then 1 else 0).
Proof.
  unfold clients_built. rewrite filter_app, length_app. simpl.
  destruct (is_construction ev); reflexivity.
Qed.

Lemma get_client_run {R : Type} (w : World) (k : str) (s : AppState) :
  get_client (R := R) w k s
  = match dict_get (client_cache s) k with
    | Some c => (Next c, s)
    | None =>
        match new_client w k with
        | Ok c =>
            (Next c,
             mkAppState (session_output s) ((k, c) :: client_cache s)
                        (trace s ++ [ClientConstructed k]))
        | Err e => (Raise e, add_event (ClientConstructed k) s)
        end
    end.
Proof.
  cbv [get_client bind get emit modify lift ret raise cache_client].
  destruct (dict_get (client_cache s) k) as [c|]; [reflexivity|].
  destruct (new_client w k) as [c|e]; reflexivity.
Qed.

(** [get_client] sends nothing and leaves the stored output alone. *)
Lemma get_client_frame {R : Type} (w : World) (k : str) (s : AppState) :
  session_output (snd (get_client (R := R) w k s)) = session_output s
  /\ requests_sent (trace (snd (get_client (R := R) w k s)))
     = requests_sent (trace s)
  /\ (forall r, fst (get_client (R := R) w k s) <> Return r).
Proof.
  rewrite get_client_run.
  destruct (dict_get (client_cache s) k) as [c|].
  - repeat split. discriminate.
  - destruct (new_client w k) as [c|e];
      cbn [fst snd add_event session_output trace];
      (split; [reflexivity|]; split; [|discriminate]).
    all: rewrite requests_sent_add; cbn [is_request]; lia.
Qed.

Lemma rewrite_call_run (w : World) (ui : Widgets) (k p : str)
    (s : AppState) :
  rewrite_call w ui k p s
  = match get_client w k s with
    | (Next c, s1) =>
        call_gemini_rewrite w c (model_choice ui) p (creativity ui)
          (add_event (UiSpinner msg_spinner) s1)
    | (Return r, s1) => (Return r, s1)
    | (Raise e, s1) => (Raise e, s1)
    end.
Proof.
  unfold rewrite_call. unfold bind at 1.
  destruct (get_client w k s) as [[c|r|e] s1]; reflexivity.
Qed.

(** The call of lines 262-264 sends at most one request and leaves the
    stored output alone, however it ends. *)
Lemma rewrite_call_frame (w : World) (ui : Widgets) (k p : str)
    (s : AppState) :
  session_output (snd (rewrite_call w ui k p s)) = session_output s
  /\ requests_sent (trace (snd (rewrite_call w ui k p s)))
     <= requests_sent (trace s) + 1
  /\ (forall r, fst (rewrite_call w ui k p s) <> Return r).
Proof.
  rewrite rewrite_call_run.
  destruct (get_client_frame (R := main_exit) w k s) as (Ho & Hr & Hn).
  destruct (get_client w k s) as [[c|r|e] s1]; cbn [fst snd] in *.
  - rewrite call_gemini_rewrite_run. cbn [fst snd].
    repeat split.
    + cbn [add_event session_output]. assumption.
    + cbn [add_event trace]. rewrite !requests_sent_add.
      cbn [is_request]. lia.
    + intros r.
      destruct (generate_content w _ c _); discriminate.
  - exfalso. now apply (Hn r).
  - repeat split; [assumption|lia|discriminate].
Qed.

(** The [try] statement, read off the way its call ended. *)
Lemma rewrite_attempt_run (w : World) (ui : Widgets) (k p : str)
    (s : AppState) :
  rewrite_attempt w ui k p s
  = match rewrite_call w ui k p s with
    | (Next out, s') =>
        if str_truthy out
        then (Next tt, mkAppState (Some out) (client_cache s') (trace s'))
        else (Return ReturnNone, add_event (UiError msg_no_response) s')
    | (Return r, s') => (Return r, s')
    | (Raise e, s') =>
        (Next tt,
         add_event (UiException e)
           (add_event (UiError msg_something_wrong) s'))
    end.
Proof.
  rewrite rewrite_call_run.
  unfold rewrite_attempt, try_except. unfold bind at 1.
  destruct (get_client w k s) as [[c|r|e] s1]; [|reflexivity|reflexivity].
  unfold bind at 1. cbv [emit modify]. unfold bind at 1.
  rewrite !call_gemini_rewrite_run.
  destruct (generate_content w _ c _) as [resp|e]; [|reflexivity].
  destruct (strip (or_empty (text resp))); reflexivity.
Qed.

Lemma show_output_frame (s : AppState) :
  fst (show_output s) = Next tt
  /\ session_output (snd (show_output s)) = session_output s
  /\ requests_sent (trace (snd (show_output s))) = requests_sent (trace s).
Proof.
  cbv [show_output bind get emit modify ret].
  destruct (session_output s) as [out|] eqn:E; cbn [fst snd].
  - repeat split; [assumption|].
    cbn [add_event trace]. rewrite !requests_sent_add.
    cbn [is_request]. lia.
  - repeat split. assumption.
Qed.

(** A run in which only [Polish] was pressed is the submit flow followed,
    when that neither returned nor raised, by the display of the output. *)
Lemma main_polish_run (w : World) (ui : Widgets) (s : AppState) :
  clear ui = false -> generate ui = true ->
  main w ui s
  = match submit_flow w ui s with
    | (Next _, s') => show_output s'
    | (Return r, s') => (Return r, s')
    | (Raise e, s') => (Raise e, s')
    end.
Proof.
  intros Hc Hg. unfold main. rewrite Hc, Hg.
  cbv [when bind ret].
  destruct (submit_flow w ui s) as [[[]|r|e] s']; reflexivity.
Qed.

Lemma submit_flow_blank (w : World) (ui : Widgets) (s : AppState) :
  strip (user_text ui) = [] ->
  submit_flow w ui s
  = (Return ReturnNone, add_event (UiWarning msg_blank_input) s).
Proof.
  intros H. unfold submit_flow. rewrite H. reflexivity.
Qed.

Lemma submit_flow_no_key (w : World) (ui : Widgets) (s : AppState)
    (k : option str) :
  strip (user_text ui) <> [] ->
  get_api_key w = Ok k -> truthy k = false ->
  submit_flow w ui s
  = (Return ReturnNone, add_event (UiError msg_missing_key) s).
Proof.
  intros Hne Hk Ht. unfold submit_flow.
  destruct (strip (user_text ui)) as [|a l]; [contradiction|].
  cbn [str_truthy negb]. rewrite Hk.
  destruct k as [[|b m]|]; [reflexivity|discriminate|reflexivity].
Qed.

Lemma submit_flow_attempt (w : World) (ui : Widgets) (s : AppState)
    (k : str) (tone : TonePreset) :
  strip (user_text ui) <> [] ->
  get_api_key w = Ok (Some k) -> k <> [] ->
  tones_lookup (tone_key ui) = Ok tone ->
  submit_flow w ui s
  = rewrite_attempt w ui k (build_prompt (user_text ui) tone) s.
Proof.
  intros Hne Hk Hkne Ht. unfold submit_flow.
  destruct (strip (user_text ui)) as [|a l]; [contradiction|].
  cbn [str_truthy negb]. rewrite Hk, Ht.
  destruct k as [|b m]; [contradiction|reflexivity].
Qed.

Lemma no_call_attempted_notice (ev : Event) (s : AppState) :
  is_request ev = false -> is_construction ev = false ->
  no_call_attempted s (add_event ev s).
Proof.
  intros Hr Hc. unfold no_call_attempted. cbn [add_event session_output
    client_cache trace].
  rewrite requests_sent_add, clients_built_add, Hr, Hc.
  repeat split; lia.
Qed.

(** C7. In the submit flow an empty result and an exception are told
    apart.  When the rewrite call returns the empty string, [main] shows
    the no-response message, stores no output and returns.  When the call
    raises, the exception is caught where the call is made: [main] shows
    the something-went-wrong message and the exception itself, goes on to
    its end without raising, stores no output, and has sent at most one
    request. *)
Theorem main_empty_result_and_exception
    (w : World) (ui : Widgets) (k : str) (tone : TonePreset)
    (s : AppState) :
  clear ui = false -> generate ui = true ->
  strip (user_text ui) <> [] ->
  get_api_key w = Ok (Some k) -> k <> [] ->
  tones_lookup (tone_key ui) = Ok tone ->
  (forall s',
      rewrite_call w ui k (build_prompt (user_text ui) tone) s
      = (Next [], s') ->
      main w ui s
      = (Return ReturnNone, add_event (UiError msg_no_response) s')
      /\ session_output (snd (main w ui s)) = session_output s)
  /\ (forall e s',
        rewrite_call w ui k (build_prompt (user_text ui) tone) s
        = (Raise e, s') ->
        main w ui s
        = show_output (add_event (UiException e)
                         (add_event (UiError msg_something_wrong) s'))
        /\ fst (main w ui s) = Next tt
        /\ session_output (snd (main w ui s)) = session_output s
        /\ requests_sent (trace (snd (main w ui s)))
           <= requests_sent (trace s) + 1)
  /\ msg_no_response <> msg_something_wrong.
Proof.
  intros Hc Hg Hne Hk Hkne Ht.
  pose proof (rewrite_call_frame w ui k
                (build_prompt (user_text ui) tone) s) as (Fo & Fr & _).
  rewrite (main_polish_run w ui s Hc Hg).
  rewrite (submit_flow_attempt w ui s k tone Hne Hk Hkne Ht).
  rewrite rewrite_attempt_run.
  split; [|split].
  - intros s' E. rewrite E in *. cbn [str_truthy snd] in *.
    split; [reflexivity|]. cbn [add_event session_output]. assumption.
  - intros e s' E. rewrite E in *. cbn [snd] in *.
    set (s2 := add_event (UiException e)
                 (add_event (UiError msg_something_wrong) s')).
    destruct (show_output_frame s2) as (Sn & So & Sr).
    split; [reflexivity|]. split; [assumption|].
    rewrite So, Sr. subst s2. cbn [add_event session_output trace].
    rewrite !requests_sent_add. cbn [is_request].
    split; [assumption|lia].
  - discriminate.
Qed.

Lemma main_empty_result_and_exception_witness :
  main (world_env_google (py "AIza-env-2"))
       (click_polish (py "Send me the file by today.")) state0
  = (Return ReturnNone,
     mkAppState None
       [(py "AIza-env-2", mkClient (py "AIza-env-2"))]
       [ ClientConstructed (py "AIza-env-2");
         UiSpinner msg_spinner;
         RequestSent (mkClient (py "AIza-env-2"))
           (rewrite_request (py "gemini-2.5-flash-lite")
              (build_prompt (py "Send me the file by today.") Polite)
              0.3%float);
         UiError msg_no_response ])
  /\ fst (main (world_service_down (py "AIza-env-2"))
               (click_polish (py "Send me the file by today.")) state0)
     = Next tt.
Proof.
  assert (N : strip (user_text (click_polish (py "Send me the file by today."))) <> [])
    by (vm_compute; discriminate).
  assert (K : py "AIza-env-2" <> []) by discriminate.
  split.
  - refine (proj1 (proj1 (main_empty_result_and_exception
                     (world_env_google (py "AIza-env-2"))
                     (click_polish (py "Send me the file by today."))
                     (py "AIza-env-2") Polite state0
                     eq_refl eq_refl N eq_refl K eq_refl)
                     (mkAppState None
                        [(py "AIza-env-2", mkClient (py "AIza-env-2"))]
                        [ ClientConstructed (py "AIza-env-2");
                          UiSpinner msg_spinner;
                          RequestSent (mkClient (py "AIza-env-2"))
                            (rewrite_request (py "gemini-2.5-flash-lite")
                               (build_prompt
                                  (py "Send me the file by today.") Polite)
                               0.3%float) ]) _)).
    reflexivity.
  - refine (proj1 (proj2 (proj1 (proj2 (main_empty_result_and_exception
                     (world_service_down (py "AIza-env-2"))
                     (click_polish (py "Send me the file by today."))
                     (py "AIza-env-2") Polite state0
                     eq_refl eq_refl N eq_refl K eq_refl))
                     (Exception (py "503 UNAVAILABLE")) _ _))).
    reflexivity.
Defined.

(** C8, as the code has it.  In the submit flow a blank sentence (empty or
    whitespace only) gets a warning ([st.warning]), and a sentence that is
    not blank with no usable key (absent or empty) gets an error message
    ([st.error]); either way that notice is the one thing the run adds,
    [main] returns at once, no client is built, no request is sent, and
    the stored output and the cached clients are what they were. *)
Theorem main_blank_warning_missing_key_error
    (w : World) (ui : Widgets) (s : AppState) :
  clear ui = false -> generate ui = true ->
  (strip (user_text ui) = [] ->
   main w ui s
   = (Return ReturnNone, add_event (UiWarning msg_blank_input) s)
   /\ no_call_attempted s (snd (main w ui s)))
  /\ (forall k,
        strip (user_text ui) <> [] ->
        get_api_key w = Ok k -> truthy k = false ->
        main w ui s
        = (Return ReturnNone, add_event (UiError msg_missing_key) s)
        /\ no_call_attempted s (snd (main w ui s))).
Proof.
  intros Hc Hg. rewrite (main_polish_run w ui s Hc Hg). split.
  - intros Hb. rewrite (submit_flow_blank w ui s Hb). cbn [snd].
    split; [reflexivity|]. now apply no_call_attempted_notice.
  - intros k Hnb Hk Hf. rewrite (submit_flow_no_key w ui s k Hnb Hk Hf).
    cbn [snd]. split; [reflexivity|]. now apply no_call_attempted_notice.
Qed.

Lemma main_blank_warning_missing_key_error_witness :
  main (world_env_google (py "AIza-env-2")) (click_polish (py "   "))
       state0
  = (Return ReturnNone, mkAppState None [] [UiWarning msg_blank_input])
  /\ main world_unconfigured (click_polish (py "Send me the file by today."))
          state0
     = (Return ReturnNone, mkAppState None [] [UiError msg_missing_key]).
Proof.
  split.
  - exact (proj1 (proj1 (main_blank_warning_missing_key_error
                    (world_env_google (py "AIza-env-2"))
                    (click_polish (py "   ")) state0 eq_refl eq_refl)
             eq_refl)).
  - refine (proj1 (proj2 (main_blank_warning_missing_key_error
                     world_unconfigured
                     (click_polish (py "Send me the file by today."))
                     state0 eq_refl eq_refl)
              None _ eq_refl eq_refl)).
    vm_compute. discriminate.
Defined.

(** With no key anywhere and a sentence to polish, the run shows no
    warning: its one notice is the error message of line 253. *)
Lemma main_missing_key_shows_no_warning :
  get_api_key world_unconfigured = Ok None
  /\ strip (user_text (click_polish (py "Send me the file by today."))) <> []
  /\ trace (snd (main world_unconfigured
                   (click_polish (py "Send me the file by today."))
                   state0))
     = [UiError msg_missing_key]
  /\ ~ (exists msg,
          In (UiWarning msg)
             (trace (snd (main world_unconfigured
                            (click_polish (py "Send me the file by today."))
                            state0)))).
Proof.
  split; [reflexivity|].
  split; [vm_compute; discriminate|].
  assert (T : trace (snd (main world_unconfigured
                            (click_polish (py "Send me the file by today."))
                            state0))
              = [UiError msg_missing_key]) by reflexivity.
  split; [exact T|].
  rewrite T. intros (msg & [H|[]]). discriminate.
Qed.

(** * Further properties of the code *)

(** ** Stripping, continued *)

Lemma dropwhile_split (s : str) :
  exists a, forallb isspace a = true /\ s = a ++ dropwhile isspace s.
Proof.
  induction s as [|c s (a & Ha & Es)]; simpl.
  - exists []. split; reflexivity.
  - destruct (isspace c) eqn:Hc.
    + exists (c :: a). simpl. rewrite Hc, Ha. split; [reflexivity|].
      now rewrite <- Es.
    + exists []. split; reflexivity.
Qed.

(** [strip] takes whitespace away, from the two ends only. *)
Lemma strip_decompose (s : str) :
  exists a b,
    forallb isspace a = true /\ forallb isspace b = true
    /\ s = a ++ strip s ++ b.
Proof.
  destruct (dropwhile_split s) as (a & Ha & Ea).
  destruct (dropwhile_split (rev (lstrip s))) as (b & Hb & Eb).
  exists a, (rev b). split; [assumption|].
  split; [now apply forallb_isspace_rev|].
  unfold strip, rstrip.
  rewrite <- rev_app_distr, <- Eb, rev_involutive. exact Ea.
Qed.

Lemma strip_outer_whitespace (ws1 s ws2 : str) :
  forallb isspace ws1 = true -> forallb isspace ws2 = true ->
  strip (ws1 ++ s ++ ws2) = strip s.
Proof.
  intros H1 H2.
  destruct (strip_decompose s) as (a & b & Ha & Hb & E).
  rewrite E at 1.
  replace (ws1 ++ (a ++ strip s ++ b) ++ ws2)
    with ((ws1 ++ a) ++ strip s ++ (b ++ ws2))
    by (rewrite <- ?app_assoc; reflexivity).
  apply strip_framed.
  - rewrite forallb_app. now rewrite H1, Ha.
  - rewrite forallb_app. now rewrite Hb, H2.
  - apply strip_no_outer_space.
Qed.

Lemma strip_empty_iff (s : str) :
  strip s = [] <-> forallb isspace s = true.
Proof.
  split.
  - intros E. destruct (strip_decompose s) as (a & b & Ha & Hb & Es).
    rewrite E in Es. rewrite Es. simpl.
    rewrite forallb_app. now rewrite Ha, Hb.
  - intros H. unfold strip. now rewrite lstrip_all_space.
Qed.

(** ** Prompt builder, continued *)

(** X1. Whitespace around the sentence does not reach the prompt: the prompt
    of a sentence with whitespace put before and after it is the prompt of
    the sentence. *)
Theorem build_prompt_ignores_outer_whitespace
    (ws1 user_text ws2 : str) (tone : TonePreset) :
  forallb isspace ws1 = true -> forallb isspace ws2 = true ->
  build_prompt (ws1 ++ user_text ++ ws2) tone = build_prompt user_text tone.
Proof.
  intros H1 H2. unfold build_prompt.
  now rewrite (strip_outer_whitespace ws1 user_text ws2 H1 H2).
Qed.

Lemma build_prompt_ignores_outer_whitespace_witness :
  build_prompt (py "  " ++ py "Call me." ++ nl) Friendly
  = build_prompt (py "Call me.") Friendly.
Proof.
  exact (build_prompt_ignores_outer_whitespace
           (py "  ") (py "Call me.") nl Friendly eq_refl eq_refl).
Defined.

Lemma sentence_part_injective (u u' : str) :
  sentence_part u = sentence_part u' -> strip u = strip u'.
Proof.
  unfold sentence_part.
  destruct (strip u) as [|a l], (strip u') as [|a' l']; simpl;
    intros E; try reflexivity; try discriminate.
  injection E as -> ->. reflexivity.
Qed.

(** X2. The prompt keeps the whole stripped sentence: two sentences that give
    the same prompt under the same instruction are equal once stripped. *)
Theorem build_prompt_keeps_sentence
    (user_text user_text' : str) (tone tone' : TonePreset) :
  instruction tone = instruction tone' ->
  build_prompt user_text tone = build_prompt user_text' tone' ->
  strip user_text = strip user_text'.
Proof.
  intros Hi E. rewrite !build_prompt_rendered in E.
  unfold prompt_through_label in E. rewrite Hi in E.
  apply app_inv_head in E. now apply sentence_part_injective.
Qed.

Lemma build_prompt_keeps_sentence_witness :
  strip (py " Call me. ") = strip (py "Call me.").
Proof.
  exact (build_prompt_keeps_sentence (py " Call me. ") (py "Call me.")
           Polite Polite eq_refl eq_refl).
Defined.

(** X3. The prompt tells the tone: two different presets of [TONES] never give
    the same prompt, whatever the sentences. *)
Theorem build_prompt_tells_tone
    (key key' : str) (tone tone' : TonePreset) (user_text user_text' : str) :
  In (key, tone) TONES -> In (key', tone') TONES -> key <> key' ->
  build_prompt user_text tone <> build_prompt user_text' tone'.
Proof.
  intros H H' Hne E. rewrite !build_prompt_rendered in E.
  unfold prompt_through_label in E. rewrite <- !app_assoc in E.
  do 5 apply app_inv_head in E.
  simpl in H, H'.
  destruct H as [H|[H|[H|[]]]]; injection H as <- <-;
    destruct H' as [H'|[H'|[H'|[]]]]; injection H' as <- <-;
    try (now elim Hne);
    vm_compute in E; discriminate E.
Qed.

Lemma build_prompt_tells_tone_witness :
  build_prompt (py "Call me.") Polite
  <> build_prompt (py "Call me.") Professional.
Proof.
  refine (build_prompt_tells_tone (py "Polite") (py "Professional")
            Polite Professional (py "Call me.") (py "Call me.") _ _ _).
  - left. reflexivity.
  - right. right. left. reflexivity.
  - discriminate.
Defined.

(** ** Credential resolver, continued *)

(** X4. A usable key is never made up: a non-empty result of [get_api_key] is
    the value of one of the four sources; and when none of the four holds
    a non-empty value, the result is not usable. *)
Theorem get_api_key_value_from_sources (w : World) :
  (forall k, get_api_key w = Ok k -> truthy k = true -> In k (sources w))
  /\ (forallb (fun src => negb (truthy src)) (sources w) = true ->
      forall k, get_api_key w = Ok k -> truthy k = false).
Proof.
  rewrite get_api_key_unfold.
  unfold sources, key_after_secrets, found, py_or. split.
  - intros k E Hk. injection E as <-.
    destruct (secrets_get w GEMINI_API_KEY) as [k1|ex1].
    + destruct (truthy k1) eqn:T1.
      * rewrite T1. left. reflexivity.
      * destruct (secrets_get w GOOGLE_API_KEY) as [k2|ex2].
        -- destruct (truthy k2) eqn:T2.
           ++ right. left. reflexivity.
           ++ destruct (truthy (getenv w GEMINI_API_KEY)) eqn:T3.
              ** right. right. left. reflexivity.
              ** right. right. right. left. reflexivity.
        -- rewrite T1 in *.
           destruct (truthy (getenv w GEMINI_API_KEY)) eqn:T3.
           ++ right. right. left. reflexivity.
           ++ right. right. right. left. reflexivity.
    + cbn [truthy] in *.
      destruct (truthy (getenv w GEMINI_API_KEY)) eqn:T3.
      * right. right. left. reflexivity.
      * right. right. right. left. reflexivity.
  - cbn [forallb]. intros H k E. injection E as <-.
    repeat (apply andb_prop in H; destruct H as [?H H]).
    repeat match goal with
           | Hn : negb _ = true |- _ => apply negb_true_iff in Hn
           end.
    destruct (secrets_get w GEMINI_API_KEY) as [k1|ex1];
      destruct (secrets_get w GOOGLE_API_KEY) as [k2|ex2];
      cbn [truthy] in *;
      repeat match goal with
             | Hf : truthy ?x = false |- context [truthy ?x] => rewrite Hf
             end;
      cbn [truthy];
      repeat match goal with
             | Hf : truthy ?x = false |- context [truthy ?x] => rewrite Hf
             end;
      try assumption; reflexivity.
Qed.

Lemma get_api_key_value_from_sources_witness :
  In (Some (py "AIza-env-2")) (sources (world_env_google (py "AIza-env-2")))
  /\ forall k, get_api_key world_unconfigured = Ok k -> truthy k = false.
Proof.
  split.
  - exact (proj1 (get_api_key_value_from_sources
                    (world_env_google (py "AIza-env-2")))
             (Some (py "AIza-env-2")) eq_refl eq_refl).
  - exact (proj2 (get_api_key_value_from_sources world_unconfigured)
             eq_refl).
Defined.

(** ** Client handle *)

Lemma dict_get_head {V : Type} (k : str) (v : V) (d : list (str * V)) :
  dict_get ((k, v) :: d) k = Some v.
Proof.
  simpl. destruct (str_eq_dec k k) as [_|N]; [reflexivity|now elim N].
Qed.

(** X5. Once [get_client] has returned a client for a key, asking again for
    that key gives the same client and does nothing else: no client is
    built and the state is the same, whatever the constructor would do
    now. *)
Theorem get_client_reuses_client {R : Type}
    (w w' : World) (k : str) (c : Client) (s s1 : AppState) :
  get_client (R := R) w k s = (Next c, s1) ->
  get_client (R := R) w' k s1 = (Next c, s1).
Proof.
  rewrite !get_client_run.
  destruct (dict_get (client_cache s) k) as [c0|] eqn:Hit.
  - intros E. injection E as <- <-. now rewrite Hit.
  - destruct (new_client w k) as [c0|e]; [|discriminate].
    intros E. injection E as <- <-.
    cbn [client_cache]. now rewrite dict_get_head.
Qed.

Lemma get_client_reuses_client_witness :
  get_client (R := main_exit) (world_service_down (py "k1")) (py "k1")
    (mkAppState None [(py "k1", mkClient (py "k1"))]
                [ClientConstructed (py "k1")])
  = (Next (mkClient (py "k1")),
     mkAppState None [(py "k1", mkClient (py "k1"))]
                [ClientConstructed (py "k1")]).
Proof.
  exact (get_client_reuses_client (R := main_exit)
           (world_env_google (py "k1")) (world_service_down (py "k1"))
           (py "k1") (mkClient (py "k1")) state0 _ eq_refl).
Defined.

(** X6. A constructor that raises leaves nothing behind: [get_client] raises
    the same exception, the cache and the stored output are as before, and
    the next call for that key runs the constructor again. *)
Theorem get_client_failure_not_cached {R : Type}
    (w : World) (k : str) (e : exn) (s : AppState) :
  dict_get (client_cache s) k = None ->
  new_client w k = Err e ->
  get_client (R := R) w k s = (Raise e, add_event (ClientConstructed k) s)
  /\ (forall w' c,
        new_client w' k = Ok c ->
        get_client (R := R) w' k (add_event (ClientConstructed k) s)
        = (Next c,
           mkAppState (session_output s) ((k, c) :: client_cache s)
             ((trace s ++ [ClientConstructed k])
              ++ [ClientConstructed k]))).
Proof.
  intros Hmiss He. rewrite get_client_run, Hmiss, He.
  split; [reflexivity|].
  intros w' c Hc. rewrite get_client_run.
  cbn [add_event client_cache session_output trace].
  now rewrite Hmiss, Hc.
Qed.

Lemma get_client_failure_not_cached_witness :
  get_client (R := main_exit)
    (mkWorld (fun _ => Ok None) (fun _ => None)
             (fun _ => Err (Exception (py "invalid key")))
             (fun _ _ _ => Ok (mkResponse None)))
    (py "k1") state0
  = (Raise (Exception (py "invalid key")),
     add_event (ClientConstructed (py "k1")) state0).
Proof.
  exact (proj1 (get_client_failure_not_cached (R := main_exit)
                  (mkWorld (fun _ => Ok None) (fun _ => None)
                     (fun _ => Err (Exception (py "invalid key")))
                     (fun _ _ _ => Ok (mkResponse None)))
                  (py "k1") (Exception (py "invalid key")) state0
                  eq_refl eq_refl)).
Defined.

(** ** Rewrite client, continued *)

(** X7. The rewrite that [call_gemini_rewrite] returns has no whitespace at
    either end, and it is the empty string exactly when the service gave
    no text or whitespace only. *)
Theorem call_gemini_rewrite_empty_iff_blank {R : Type}
    (w : World) (c : Client) (m p : str) (t : float) (s : AppState)
    (out : str) :
  fst (call_gemini_rewrite (R := R) w c m p t s) = Next out ->
  no_outer_space out
  /\ exists resp,
       generate_content w (trace s) c (rewrite_request m p t) = Ok resp
       /\ (out = [] <->
           text resp = None
           \/ exists x, text resp = Some x /\ forallb isspace x = true).
Proof.
  rewrite call_gemini_rewrite_run. cbn [fst].
  destruct (generate_content w (trace s) c (rewrite_request m p t))
    as [resp|e]; [|discriminate].
  intros E. injection E as <-.
  split; [apply strip_no_outer_space|].
  exists resp. split; [reflexivity|].
  destruct (text resp) as [x|].
  - rewrite or_empty_some, strip_empty_iff. split.
    + intros H. right. exists x. now split.
    + intros [H|(x' & Hx & H)]; [discriminate|].
      now injection Hx as ->.
  - split; [now left|reflexivity].
Qed.

Lemma call_gemini_rewrite_empty_iff_blank_witness :
  no_outer_space []
  /\ exists resp,
       generate_content
         (world_with (py "k") (Ok (mkResponse (Some (py "  ")))))
         (trace state0) (mkClient (py "k"))
         (rewrite_request (py "gemini-2.5-flash") (py "prompt") 0.3%float)
       = Ok resp
       /\ (([] : str) = [] <->
           text resp = None
           \/ exists x, text resp = Some x /\ forallb isspace x = true).
Proof.
  exact (call_gemini_rewrite_empty_iff_blank (R := main_exit)
           (world_with (py "k") (Ok (mkResponse (Some (py "  ")))))
           (mkClient (py "k")) (py "gemini-2.5-flash") (py "prompt")
           0.3%float state0 [] eq_refl).
Defined.

(** ** The page, continued *)

Lemma requests_sent_app (a b : list Event) :
  requests_sent (a ++ b) = requests_sent a + requests_sent b.
Proof. unfold requests_sent. now rewrite filter_app, length_app. Qed.

Lemma clients_built_app (a b : list Event) :
  clients_built (a ++ b) = clients_built a + clients_built b.
Proof. unfold clients_built. now rewrite filter_app, length_app. Qed.

Lemma show_output_run (s : AppState) :
  fst (show_output s) = Next tt
  /\ session_output (snd (show_output s)) = session_output s
  /\ client_cache (snd (show_output s)) = client_cache s
  /\ added s (snd (show_output s)) (display_events (session_output s)).
Proof.
  unfold added. cbv [show_output bind get emit modify ret].
  destruct (session_output s) as [out|] eqn:E; cbn [fst snd].
  - cbn [add_event session_output client_cache trace display_events].
    rewrite <- !app_assoc. repeat split. assumption.
  - cbn [display_events]. rewrite app_nil_r. repeat split. assumption.
Qed.

Lemma main_clear_run (w : World) (ui : Widgets) (s : AppState) :
  clear ui = true ->
  main w ui s
  = (Return RerunSignal, mkAppState None (client_cache s) (trace s)).
Proof. intros Hc. unfold main. rewrite Hc. reflexivity. Qed.

Lemma main_idle_run (w : World) (ui : Widgets) (s : AppState) :
  clear ui = false -> generate ui = false ->
  main w ui s = show_output s.
Proof.
  intros Hc Hg. unfold main. rewrite Hc, Hg.
  cbv [when bind ret]. destruct (show_output s) as [[[]|r|e] s'];
    reflexivity.
Qed.

Lemma submit_flow_unknown_tone (w : World) (ui : Widgets) (s : AppState)
    (k : str) (e : exn) :
  strip (user_text ui) <> [] ->
  get_api_key w = Ok (Some k) -> k <> [] ->
  tones_lookup (tone_key ui) = Err e ->
  submit_flow w ui s = (Raise e, s).
Proof.
  intros Hne Hk Hkne Ht. unfold submit_flow.
  destruct (strip (user_text ui)) as [|a l]; [contradiction|].
  cbn [str_truthy negb]. rewrite Hk, Ht.
  destruct k as [|b m]; [contradiction|reflexivity].
Qed.

(** What the call of lines 262-264 adds to the trace, however it ends. *)
Lemma rewrite_call_summary (w : World) (ui : Widgets) (k p : str)
    (s : AppState) :
  exists evs,
    added s (snd (rewrite_call w ui k p s)) evs
    /\ session_output (snd (rewrite_call w ui k p s)) = session_output s
    /\ requests_sent evs <= 1 /\ clients_built evs <= 1
    /\ (forall c req,
          In (RequestSent c req) evs ->
          req = rewrite_request (model_choice ui) p (creativity ui)
          /\ dict_get (client_cache (snd (rewrite_call w ui k p s))) k
             = Some c)
    /\ (forall out, fst (rewrite_call w ui k p s) = Next out ->
                    no_outer_space out)
    /\ (forall r, fst (rewrite_call w ui k p s) <> Return r).
Proof.
  unfold added. rewrite rewrite_call_run, get_client_run.
  destruct (dict_get (client_cache s) k) as [c|] eqn:Hit;
    [|destruct (new_client w k) as [c|e]].
  - rewrite call_gemini_rewrite_run. cbn [fst snd].
    exists [UiSpinner msg_spinner;
            RequestSent c (rewrite_request (model_choice ui) p
                             (creativity ui))].
    cbn [add_event session_output client_cache trace].
    rewrite <- app_assoc.
    split; [reflexivity|]. split; [reflexivity|].
    split; [cbv; lia|]. split; [cbv; lia|].
    split; [|split].
    + intros c' req [H|[H|[]]]; [discriminate|].
      injection H as <- <-. now split.
    + intros out.
      destruct (generate_content w _ c _); [|discriminate].
      intros E. injection E as <-. apply strip_no_outer_space.
    + intros r. destruct (generate_content w _ c _); discriminate.
  - rewrite call_gemini_rewrite_run. cbn [fst snd].
    exists [ClientConstructed k; UiSpinner msg_spinner;
            RequestSent c (rewrite_request (model_choice ui) p
                             (creativity ui))].
    cbn [add_event session_output client_cache trace].
    rewrite <- !app_assoc.
    split; [reflexivity|]. split; [reflexivity|].
    split; [cbv; lia|]. split; [cbv; lia|].
    split; [|split].
    + intros c' req [H|[H|[H|[]]]]; try discriminate.
      injection H as <- <-. split; [reflexivity|apply dict_get_head].
    + intros out.
      destruct (generate_content w _ c _); [|discriminate].
      intros E. injection E as <-. apply strip_no_outer_space.
    + intros r. destruct (generate_content w _ c _); discriminate.
  - cbn [fst snd]. exists [ClientConstructed k].
    cbn [add_event session_output client_cache trace].
    split; [reflexivity|]. split; [reflexivity|].
    split; [cbv; lia|]. split; [cbv; lia|].
    split; [|split].
    + intros c' req [H|[]]. discriminate.
    + discriminate.
    + discriminate.
Qed.

Lemma in_request_counts (c : Client) (req : GenerateRequest)
    (l : list Event) :
  In (RequestSent c req) l -> 0 < requests_sent l.
Proof.
  intros H. apply in_split in H. destruct H as (a & b & ->).
  rewrite requests_sent_app.
  change (RequestSent c req :: b) with ([RequestSent c req] ++ b).
  rewrite requests_sent_app.
  change (requests_sent [RequestSent c req]) with 1. lia.
Qed.

Lemma run_events_ok_quiet (w : World) (ui : Widgets)
    (cache' : list (str * Client)) (evs : list Event) :
  requests_sent evs = 0 -> clients_built evs = 0 ->
  run_events_ok w ui cache' evs.
Proof.
  intros Hr Hc. unfold run_events_ok. rewrite Hr, Hc.
  split; [lia|]. split; [lia|]. split; [lia|].
  intros c req H. apply in_request_counts in H. lia.
Qed.

Lemma run_events_ok_app_quiet (w : World) (ui : Widgets)
    (cache' : list (str * Client)) (evs tail : list Event) :
  run_events_ok w ui cache' evs ->
  requests_sent tail = 0 -> clients_built tail = 0 ->
  run_events_ok w ui cache' (evs ++ tail).
Proof.
  intros (Hr & Hc & Hp & Hq) Tr Tc. unfold run_events_ok.
  rewrite requests_sent_app, clients_built_app, Tr, Tc, !Nat.add_0_r.
  split; [assumption|]. split; [assumption|]. split; [assumption|].
  intros c req H. apply in_app_or in H. destruct H as [H|H].
  - now apply Hq.
  - apply in_request_counts in H. lia.
Qed.

Lemma display_events_quiet (o : option str) :
  requests_sent (display_events o) = 0
  /\ clients_built (display_events o) = 0.
Proof. destruct o; split; reflexivity. Qed.

(** One run of [main], whatever the widgets, the surroundings and the
    state: what it adds to the trace and what it may do to the stored
    output. *)
Lemma main_summary (w : World) (ui : Widgets) (s : AppState) :
  exists evs,
    added s (snd (main w ui s)) evs
    /\ run_events_ok w ui (client_cache (snd (main w ui s))) evs
    /\ (session_output (snd (main w ui s)) = session_output s
        \/ session_output (snd (main w ui s)) = None
        \/ exists out,
             session_output (snd (main w ui s)) = Some out
             /\ out <> [] /\ no_outer_space out).
Proof.
  destruct (clear ui) eqn:Hc.
  { rewrite (main_clear_run w ui s Hc). exists []. cbn [snd].
    split; [unfold added; cbn [trace]; now rewrite app_nil_r|].
    split; [now apply run_events_ok_quiet|]. right. left. reflexivity. }
  destruct (generate ui) eqn:Hg.
  2:{ rewrite (main_idle_run w ui s Hc Hg).
      destruct (show_output_run s) as (_ & So & _ & Sa).
      destruct (display_events_quiet (session_output s)) as (Dr & Dc).
      exists (display_events (session_output s)).
      split; [assumption|].
      split; [now apply run_events_ok_quiet|]. now left. }
  rewrite (main_polish_run w ui s Hc Hg).
  destruct (str_eq_dec (strip (user_text ui)) []) as [Hb|Hnb].
  { rewrite (submit_flow_blank w ui s Hb).
    exists [UiWarning msg_blank_input]. cbn [snd].
    split; [reflexivity|].
    split; [now apply run_events_ok_quiet|]. now left. }
  destruct (get_api_key w) as [k|e] eqn:Hk;
    [|rewrite get_api_key_unfold in Hk; discriminate].
  destruct (truthy k) eqn:Tk.
  2:{ rewrite (submit_flow_no_key w ui s k Hnb Hk Tk).
      exists [UiError msg_missing_key]. cbn [snd].
      split; [reflexivity|].
      split; [now apply run_events_ok_quiet|]. now left. }
  destruct k as [k|]; [|discriminate].
  assert (Hkne : k <> []) by (intros ->; discriminate).
  destruct (tones_lookup (tone_key ui)) as [tone|e] eqn:Ht.
  2:{ rewrite (submit_flow_unknown_tone w ui s k e Hnb Hk Hkne Ht).
      exists []. cbn [snd].
      split; [unfold added; now rewrite app_nil_r|].
      split; [now apply run_events_ok_quiet|]. now left. }
  assert (Att : polish_attempted w ui).
  { unfold polish_attempted. repeat split; try assumption.
    exists k, tone. repeat split; assumption. }
  rewrite (submit_flow_attempt w ui s k tone Hnb Hk Hkne Ht).
  rewrite rewrite_attempt_run.
  destruct (rewrite_call_summary w ui k
              (build_prompt (user_text ui) tone) s)
    as (evs & Ha & Ho & Hr & Hb & Hq & Hout & Hn).
  unfold added in *.
  destruct (rewrite_call w ui k (build_prompt (user_text ui) tone) s)
    as [[out|r|e] s1]; cbn [fst snd] in *; [| now elim (Hn r) |].
  - assert (Ok1 : run_events_ok w ui (client_cache s1) evs).
    { unfold run_events_ok.
      split; [assumption|]. split; [assumption|].
      split; [intros _; exact Att|].
      intros c req Hin. destruct (Hq c req Hin) as (-> & Hd).
      exists k, tone. repeat split; assumption. }
    destruct (str_truthy out) eqn:To.
    + set (s2 := mkAppState (Some out) (client_cache s1) (trace s1)).
      destruct (show_output_run s2) as (_ & So & Sc & Sa).
      unfold added in Sa.
      destruct (display_events_quiet (session_output s2)) as (Dr & Dc).
      exists (evs ++ display_events (session_output s2)).
      split; [rewrite Sa; subst s2; cbn [trace]; rewrite Ha;
              now rewrite app_assoc|].
      split; [rewrite Sc; subst s2; cbn [client_cache];
              now apply run_events_ok_app_quiet|].
      right. right. exists out. rewrite So. subst s2.
      split; [reflexivity|].
      split; [intros ->; discriminate|now apply Hout].
    + exists (evs ++ [UiError msg_no_response]).
      cbn [snd add_event trace client_cache session_output].
      split; [rewrite Ha; now rewrite app_assoc|].
      split; [now apply run_events_ok_app_quiet|]. now left.
  - assert (Ok1 : run_events_ok w ui (client_cache s1) evs).
    { unfold run_events_ok.
      split; [assumption|]. split; [assumption|].
      split; [intros _; exact Att|].
      intros c req Hin. destruct (Hq c req Hin) as (-> & Hd).
      exists k, tone. repeat split; assumption. }
    set (s2 := add_event (UiException e)
                 (add_event (UiError msg_something_wrong) s1)).
    destruct (show_output_run s2) as (_ & So & Sc & Sa).
    unfold added in Sa.
    destruct (display_events_quiet (session_output s2)) as (Dr & Dc).
    exists ((evs ++ [UiError msg_something_wrong; UiException e])
            ++ display_events (session_output s2)).
    split; [rewrite Sa; subst s2;
            cbn [add_event trace]; rewrite Ha;
            now rewrite <- !app_assoc|].
    split.
    + rewrite Sc. subst s2. cbn [add_event client_cache].
      apply run_events_ok_app_quiet; try assumption.
      now apply run_events_ok_app_quiet.
    + left. rewrite So. subst s2. cbn [add_event session_output].
      assumption.
Qed.

(** X8. One run of [main] sends at most one request to the service and builds
    at most one client, whatever the widgets, the surroundings and the
    state it starts from. *)
Theorem main_at_most_one_request (w : World) (ui : Widgets) (s : AppState) :
  requests_sent (trace (snd (main w ui s))) <= requests_sent (trace s) + 1
  /\ clients_built (trace (snd (main w ui s)))
     <= clients_built (trace s) + 1.
Proof.
  destruct (main_summary w ui s) as (evs & Ha & (Hr & Hc & _) & _).
  unfold added in Ha. rewrite Ha, requests_sent_app, clients_built_app.
  lia.
Qed.

(** X9. [main] builds a client or sends a request only when [Polish] was
    pressed without [Clear], the sentence is not blank, a non-empty key was
    resolved and the tone is one of [TONES]. *)
Theorem main_contacts_service_only_on_polish
    (w : World) (ui : Widgets) (s : AppState) :
  requests_sent (trace (snd (main w ui s))) <> requests_sent (trace s)
  \/ clients_built (trace (snd (main w ui s))) <> clients_built (trace s) ->
  polish_attempted w ui.
Proof.
  destruct (main_summary w ui s) as (evs & Ha & (_ & _ & Hp & _) & _).
  unfold added in Ha. rewrite Ha, requests_sent_app, clients_built_app.
  intros H. apply Hp. lia.
Qed.

Lemma main_contacts_service_only_on_polish_witness :
  polish_attempted (world_answering (py "Could you call me?"))
                   (click_polish (py "Call me.")).
Proof.
  refine (main_contacts_service_only_on_polish
            (world_answering (py "Could you call me?"))
            (click_polish (py "Call me.")) state0 _).
  left. vm_compute. discriminate.
Defined.

Lemma events_of_run_added (w : World) (ui : Widgets) (s : AppState)
    (evs : list Event) :
  added s (snd (main w ui s)) evs -> events_of_run w ui s = evs.
Proof.
  unfold added, events_of_run. intros ->.
  rewrite skipn_app, skipn_all, Nat.sub_diag. reflexivity.
Qed.

(** X10. Every request that a run of [main] sends is the one for the page:
    whichever request is among the events the run adds, its prompt is
    [build_prompt] of the sentence and of the tone selected, its model and
    temperature are the ones selected, and it goes through the client kept
    for the key that [get_api_key] resolved. *)
Theorem main_request_is_for_the_page
    (w : World) (ui : Widgets) (s : AppState)
    (c : Client) (req : GenerateRequest) :
  In (RequestSent c req) (events_of_run w ui s) ->
  exists k tone,
    get_api_key w = Ok (Some k)
    /\ tones_lookup (tone_key ui) = Ok tone
    /\ req = rewrite_request (model_choice ui)
               (build_prompt (user_text ui) tone) (creativity ui)
    /\ dict_get (client_cache (snd (main w ui s))) k = Some c.
Proof.
  destruct (main_summary w ui s) as (evs & Ha & (_ & _ & _ & Hq) & _).
  rewrite (events_of_run_added w ui s evs Ha). apply Hq.
Qed.

Lemma main_request_is_for_the_page_witness :
  exists k tone,
    get_api_key (world_answering (py "Could you call me?")) = Ok (Some k)
    /\ tones_lookup (tone_key (click_polish (py " Call me. "))) = Ok tone
    /\ rewrite_request (py "gemini-2.5-flash-lite")
         (build_prompt (py "Call me.") Polite) 0.3%float
       = rewrite_request (model_choice (click_polish (py " Call me. ")))
           (build_prompt (user_text (click_polish (py " Call me. "))) tone)
           (creativity (click_polish (py " Call me. ")))
    /\ dict_get
         (client_cache
            (snd (main (world_answering (py "Could you call me?"))
                       (click_polish (py " Call me. "))
                       (mkAppState None
                          [(py "AIza-env-2", mkClient (py "AIza-env-2"))]
                          [RequestSent (mkClient (py "AIza-env-2"))
                             (rewrite_request (py "gemini-2.5-flash-lite")
                                (build_prompt (py "Call me.") Polite)
                                0.3%float)])))) k
       = Some (mkClient (py "AIza-env-2")).
Proof.
  refine (main_request_is_for_the_page
            (world_answering (py "Could you call me?"))
            (click_polish (py " Call me. "))
            (mkAppState None
               [(py "AIza-env-2", mkClient (py "AIza-env-2"))]
               [RequestSent (mkClient (py "AIza-env-2"))
                  (rewrite_request (py "gemini-2.5-flash-lite")
                     (build_prompt (py "Call me.") Polite) 0.3%float)])
            (mkClient (py "AIza-env-2"))
            (rewrite_request (py "gemini-2.5-flash-lite")
               (build_prompt (py "Call me.") Polite) 0.3%float) _).
  right. left. reflexivity.
Defined.

(** X11. A stored output is always a rewrite fit to show: when the output
    stored before a run is non-empty and has no whitespace at either end,
    or there is none, the same holds after the run. *)
Theorem main_keeps_output_good (w : World) (ui : Widgets) (s : AppState) :
  good_output (session_output s) ->
  good_output (session_output (snd (main w ui s))).
Proof.
  intros Hg.
  destruct (main_summary w ui s) as (_ & _ & _ & [E|[E|(out & E & Hn & Hs)]]);
    rewrite E.
  - assumption.
  - intros out Hout. discriminate.
  - intros out' Hout. injection Hout as <-. now split.
Qed.

Lemma main_keeps_output_good_witness :
  good_output
    (session_output
       (snd (main (world_answering (py " Could you call me? "))
                  (click_polish (py "Call me.")) state0))).
Proof.
  refine (main_keeps_output_good
            (world_answering (py " Could you call me? "))
            (click_polish (py "Call me.")) state0 _).
  intros out H. discriminate.
Defined.

(** X12. When the rewrite call returns a non-empty rewrite, [main] stores it
    and shows it: the run ends normally, the stored output is the rewrite,
    and the last events are the heading, the card with the rewrite, a blank
    line and the download button whose data is the rewrite. *)
Theorem main_stores_and_shows_rewrite
    (w : World) (ui : Widgets) (k : str) (tone : TonePreset)
    (s s' : AppState) (out : str) :
  clear ui = false -> generate ui = true ->
  strip (user_text ui) <> [] ->
  get_api_key w = Ok (Some k) -> k <> [] ->
  tones_lookup (tone_key ui) = Ok tone ->
  rewrite_call w ui k (build_prompt (user_text ui) tone) s
  = (Next out, s') ->
  out <> [] ->
  fst (main w ui s) = Next tt
  /\ session_output (snd (main w ui s)) = Some out
  /\ client_cache (snd (main w ui s)) = client_cache s'
  /\ trace (snd (main w ui s))
     = trace s' ++ [ UiMarkdown msg_polished_heading;
                     UiMarkdown (output_card out);
                     UiWrite [];
                     UiDownloadButton out ].
Proof.
  intros Hc Hg Hne Hk Hkne Ht E Hout.
  rewrite (main_polish_run w ui s Hc Hg).
  rewrite (submit_flow_attempt w ui s k tone Hne Hk Hkne Ht).
  rewrite rewrite_attempt_run, E.
  destruct out as [|a l]; [contradiction|]. cbn [str_truthy].
  destruct (show_output_run
              (mkAppState (Some (a :: l)) (client_cache s') (trace s')))
    as (Sn & So & Sc & Sa).
  unfold added in Sa.
  split; [exact Sn|]. split; [exact So|]. split; [exact Sc|exact Sa].
Qed.

Lemma main_stores_and_shows_rewrite_witness :
  session_output
    (snd (main (world_answering (py " Could you call me? "))
               (click_polish (py "Call me.")) state0))
  = Some (py "Could you call me?").
Proof.
  assert (N : strip (user_text (click_polish (py "Call me."))) <> [])
    by (vm_compute; discriminate).
  assert (K : py "AIza-env-2" <> []) by discriminate.
  assert (O : py "Could you call me?" <> []) by discriminate.
  refine (proj1 (proj2 (main_stores_and_shows_rewrite
                   (world_answering (py " Could you call me? "))
                   (click_polish (py "Call me.")) (py "AIza-env-2") Polite
                   state0
                   (snd (rewrite_call
                           (world_answering (py " Could you call me? "))
                           (click_polish (py "Call me."))
                           (py "AIza-env-2")
                           (build_prompt (py "Call me.") Polite) state0))
                   (py "Could you call me?")
                   eq_refl eq_refl N eq_refl K eq_refl _ O))).
  reflexivity.
Defined.

(** X13. [Clear] forgets the output.  With [Clear] pressed the run asks
    for a rerun, the stored output is gone, the cached clients are as
    before and no client is built and no request sent; in the run after
    it, with no button pressed, there is still no stored output and no
    download button is shown. *)
Theorem main_clear_forgets_output
    (w w' : World) (ui ui' : Widgets) (s : AppState) :
  clear ui = true ->
  clear ui' = false -> generate ui' = false ->
  fst (main w ui s) = Return RerunSignal
  /\ session_output (snd (main w ui s)) = None
  /\ client_cache (snd (main w ui s)) = client_cache s
  /\ requests_sent (events_of_run w ui s) = 0
  /\ clients_built (events_of_run w ui s) = 0
  /\ session_output (snd (main w' ui' (snd (main w ui s)))) = None
  /\ (forall data,
        ~ In (UiDownloadButton data)
             (events_of_run w' ui' (snd (main w ui s)))).
Proof.
  intros Hc Hc' Hg'.
  assert (E1 : events_of_run w ui s = []).
  { apply events_of_run_added. rewrite (main_clear_run w ui s Hc).
    unfold added. cbn [snd trace]. now rewrite app_nil_r. }
  rewrite E1. rewrite (main_clear_run w ui s Hc). cbn [fst snd].
  set (s1 := mkAppState None (client_cache s) (trace s)).
  assert (E2 : events_of_run w' ui' s1 = []).
  { apply events_of_run_added. rewrite (main_idle_run w' ui' s1 Hc' Hg').
    unfold added. cbn. now rewrite app_nil_r. }
  rewrite E2, (main_idle_run w' ui' s1 Hc' Hg').
  repeat split. intros data [].
Qed.

Lemma main_clear_forgets_output_witness :
  session_output
    (snd (main world_unconfigured
            (mkWidgets (py "Polite") (py "gemini-2.5-flash") 0.3%float
                       (py "Call me.") false true)
            (mkAppState (Some (py "Could you call me?")) [] [])))
  = None.
Proof.
  exact (proj1 (proj2 (main_clear_forgets_output
                  world_unconfigured world_unconfigured
                  (mkWidgets (py "Polite") (py "gemini-2.5-flash")
                             0.3%float (py "Call me.") false true)
                  (mkWidgets (py "Polite") (py "gemini-2.5-flash")
                             0.3%float (py "Call me.") false false)
                  (mkAppState (Some (py "Could you call me?")) [] [])
                  eq_refl eq_refl eq_refl))).
Defined.

(** X14. A run with no button pressed keeps what is stored and shows it:
    it ends normally, the stored output and the cached clients are as
    before, no client is built and no request sent, and the events the run
    adds end with the display of the stored output: heading, card,
    blank line and download button. *)
Theorem main_idle_keeps_and_shows_output
    (w : World) (ui : Widgets) (s : AppState) :
  clear ui = false -> generate ui = false ->
  fst (main w ui s) = Next tt
  /\ session_output (snd (main w ui s)) = session_output s
  /\ client_cache (snd (main w ui s)) = client_cache s
  /\ requests_sent (events_of_run w ui s) = 0
  /\ clients_built (events_of_run w ui s) = 0
  /\ ends_with (events_of_run w ui s) (display_events (session_output s)).
Proof.
  intros Hc Hg.
  assert (E : events_of_run w ui s = display_events (session_output s)).
  { apply events_of_run_added. rewrite (main_idle_run w ui s Hc Hg).
    apply show_output_run. }
  rewrite E, (main_idle_run w ui s Hc Hg).
  destruct (show_output_run s) as (Sn & So & Sc & _).
  destruct (display_events_quiet (session_output s)) as (Dr & Dc).
  repeat split; try assumption.
  exists []. reflexivity.
Qed.

Lemma main_idle_keeps_and_shows_output_witness :
  ends_with
    (events_of_run world_unconfigured
       (mkWidgets (py "Polite") (py "gemini-2.5-flash") 0.3%float
                  [] false false)
       (mkAppState (Some (py "Could you call me?")) [] []))
    [ UiMarkdown msg_polished_heading;
      UiMarkdown (output_card (py "Could you call me?"));
      UiWrite [];
      UiDownloadButton (py "Could you call me?") ].
Proof.
  exact (proj2 (proj2 (proj2 (proj2 (proj2
           (main_idle_keeps_and_shows_output
              world_unconfigured
              (mkWidgets (py "Polite") (py "gemini-2.5-flash")
                         0.3%float [] false false)
              (mkAppState (Some (py "Could you call me?")) [] [])
              eq_refl eq_refl)))))).
Defined.
